(** * LineGraph: coordinate mapping, ticks and gridlines

    A shallow embedding of the [LineGraph] component of
    react-native-line-graph (src/src/afile.tsx) and the properties its
    specification states about it.

    Conventions of the embedding.
    - A JavaScript [number] is an exact rational ([Q]); equality of pixel
      coordinates is [Qeq] ([==]).  Rounding, NaN and the infinities of
      IEEE doubles are outside the model.
    - A [Date] is its time value in integer milliseconds.
    - A thrown exception is the [Throw] case of [result]; the component is
      a function from its props to [result Rendered].
    - d3-scale is an external library: the component is written against
      the interface [ScaleLibrary]; what the specification says of a scale
      (monotonic, domain onto range, nicing widens) is [ScaleContract].
      [AffineScale] is an executable instance of both.
    - Optional props are [option]; a prop that is a value or a function
      is an inductive with one constructor per case.  Callbacks passed in
      props and the functions of the scale library are total: the one
      exception of the model is that of [reduce], and an exception raised
      inside the library (a format specifier [tickFormat] refuses) is not
      modelled.
    - React keys, the curve path of d3-shape, the title and the
      [children] callback take no part in the coordinate and tick
      pipeline and are not modelled. *)

From Stdlib Require Import QArith Qround Qminmax ZArith List String Bool Lia Lqa.
From Stdlib Require Import DecimalString Qpower.
Import ListNotations.
Open Scope Q_scope.

(** ** Scalars and the runtime's comparisons *)

(** [type Scalar = number | Date] *)
Inductive Scalar : Type :=
| SNumber (n : Q)
| SDate (ms : Z).

(** [valueOf]: the number a scalar is compared and scaled by. *)
Definition valueOf (s : Scalar) : Q :=
  match s with
  | SNumber n => n
  | SDate ms => inject_Z ms
  end.

(** [s instanceof Date] *)
Definition instanceofDate (s : Scalar) : bool :=
  match s with
  | SNumber _ => false
  | SDate _ => true
  end.

Definition Qltb (a b : Q) : bool := negb (Qle_bool b a).

(** [a < b] and [a > b] on scalars compare the primitive values. *)
Definition js_lt (a b : Scalar) : bool := Qltb (valueOf a) (valueOf b).
Definition js_gt (a b : Scalar) : bool := Qltb (valueOf b) (valueOf a).

(** Truthiness of a number: [0] is falsy. *)
Definition truthy (n : Q) : bool := negb (Qeq_bool n 0).

(** [v || d] for an optional number [v]. *)
Definition num_or (v : option Q) (d : Q) : Q :=
  match v with
  | Some n => if truthy n then n else d
  | None => d
  end.

(** [v = d] in a destructuring pattern: the default replaces [undefined]
    only. *)
Definition with_default {A : Type} (v : option A) (d : A) : A :=
  match v with
  | Some a => a
  | None => d
  end.

(** [o?.f] *)
Definition chain {A B : Type} (o : option A) (f : A -> option B) : option B :=
  match o with
  | Some a => f a
  | None => None
  end.

(** ** Exceptions *)

Inductive JsError : Type :=
| TypeError (message : string).

Inductive result (A : Type) : Type :=
| Ok (a : A)
| Throw (e : JsError).

Arguments Ok {A} a.
Arguments Throw {A} e.

Definition bind {A B : Type} (r : result A) (k : A -> result B) : result B :=
  match r with
  | Ok a => k a
  | Throw e => Throw e
  end.

Notation "x <- r ;; k" := (bind r (fun x => k))
  (at level 61, r at next level, right associativity).

(** [Array.prototype.reduce] without an initial value: the first element
    seeds the accumulator, and an empty array is a [TypeError]. *)
Definition reduce {T : Type} (f : T -> T -> T) (array : list T) : result T :=
  match array with
  | [] => Throw (TypeError "Reduce of empty array with no initial value")
  | a :: rest => Ok (fold_left f rest a)
  end.

Definition min (array : list Scalar) : result Scalar :=
  reduce (fun a b => if js_lt a b then a else b) array.

Definition max (array : list Scalar) : result Scalar :=
  reduce (fun a b => if js_gt a b then a else b) array.

(** ** Data model *)

Module Datum.
Record t : Type := mk { x : Scalar; y : Scalar }.
End Datum.

Module PixelOffset.
Record t : Type := mk { horizontal : Q; vertical : Q }.
End PixelOffset.

Definition DEFAULT_OFFSET : PixelOffset.t := PixelOffset.mk 0 0.

Module XAxisLabel.
Record t : Type := mk { x : Scalar; text : string }.
End XAxisLabel.

Module YAxisLabel.
Record t : Type := mk { y : Scalar; text : string }.
End YAxisLabel.

Module PointData.
Record t : Type := mk { x : Scalar; y : Scalar; pixelX : Q; pixelY : Q }.
End PointData.

Module GridLine.
Record t : Type := mk { p1 : PointData.t; p2 : PointData.t }.
End GridLine.

(** The text props the component reads or writes; a spread [{...a, ...b}]
    is [spread a b], where a field set in [b] wins. *)
Module TextProps.
Record t : Type := mk {
  fontSize : option Q;
  textAnchor : option string;
  x : option Q;
  y : option Q
}.
Definition empty : t := mk None None None None.
Definition later {A : Type} (a b : option A) : option A :=
  match b with
  | Some _ => b
  | None => a
  end.
Definition spread (a b : t) : t :=
  mk (later (fontSize a) (fontSize b)) (later (textAnchor a) (textAnchor b))
     (later (x a) (x b)) (later (y a) (y b)).
End TextProps.

Definition DEFAULT_AXIS_TEXT_PROPS : TextProps.t :=
  TextProps.mk (Some 12) None None None.

Definition DEFAULT_XAXIS_TEXT_PROPS : TextProps.t :=
  TextProps.spread DEFAULT_AXIS_TEXT_PROPS
    (TextProps.mk None (Some "middle"%string) None None).

Definition DEFAULT_YAXIS_TEXT_PROPS : TextProps.t :=
  TextProps.spread DEFAULT_AXIS_TEXT_PROPS TextProps.empty.

(** [IAxisTick] *)
Module AxisTick.
Record t : Type := mk {
  x : Scalar;
  y : Scalar;
  pixelX : Q;
  pixelY : Q;
  text : string;
  textProps : TextProps.t;
  gridLine : GridLine.t
}.
End AxisTick.

Inductive GridLineStrokeType : Type := dotted | dashed | solid | none.

Module LineProps.
Record t : Type := mk {
  stroke : option string;
  strokeWidth : option Q;
  strokeDasharray : option string;
  strokeLinecap : option string;
  fill : option string
}.
Definition empty : t := mk None None None None None.
Definition spread (a b : t) : t :=
  mk (TextProps.later (stroke a) (stroke b))
     (TextProps.later (strokeWidth a) (strokeWidth b))
     (TextProps.later (strokeDasharray a) (strokeDasharray b))
     (TextProps.later (strokeLinecap a) (strokeLinecap b))
     (TextProps.later (fill a) (fill b)).
End LineProps.

Module GridLineProps.
Record t : Type := mk {
  lineProps : LineProps.t;
  startExtendPixels : option Q;
  endExtendPixels : option Q;
  strokeType : option GridLineStrokeType
}.
End GridLineProps.

Definition DEFAULT_GRIDLINE_STROKE_TYPE : GridLineStrokeType := solid.
Definition DEFAULT_DASHED_DASHARRAY : string := "5, 5".
Definition DEFAULT_DOTTED_DASHARRAY : string := "1, 5".
Definition DEFAULT_DOTTED_WIDTH : Q := 2.

Definition DEFAULT_GRIDLINE_LINE_PROPS : LineProps.t :=
  LineProps.mk (Some "lightgray"%string) None None None None.

Definition DEFAULT_XAXIS_TOP_EXTEND : Q := 0.
Definition DEFAULT_XAXIS_BOTTOM_EXTEND : Q := 0.
Definition DEFAULT_YAXIS_LEFT_EXTEND : Q := 0.
Definition DEFAULT_YAXIS_RIGHT_EXTEND : Q := 0.

Definition DEFAULT_PADDING_TOP : Q := 10.
Definition DEFAULT_PADDING_RIGHT : Q := 10.
Definition DEFAULT_PADDING_BOTTOM : Q := 20.
Definition DEFAULT_PADDING_LEFT : Q := 20.

(** [nice?: true | number] *)
Inductive NiceProp : Type :=
| NiceTrue
| NiceCount (count : Q).

(** [labels?: XAxisLabel<X>[] | number] *)
Inductive XLabelsProp : Type :=
| XLabelArray (labels : list XAxisLabel.t)
| XLabelCount (count : Q).

Inductive YLabelsProp : Type :=
| YLabelArray (labels : list YAxisLabel.t)
| YLabelCount (count : Q).

(** [PixelOffset | ((label, index) => PixelOffset)] *)
Inductive XAxisPixelOffsetProp : Type :=
| XOffsetValue (offset : PixelOffset.t)
| XOffsetFunction (f : XAxisLabel.t -> nat -> PixelOffset.t).

Inductive YAxisPixelOffsetProp : Type :=
| YOffsetValue (offset : PixelOffset.t)
| YOffsetFunction (f : YAxisLabel.t -> nat -> PixelOffset.t).

Inductive XLocation : Type := top | bottom.
Inductive YLocation : Type := left | right.

(** [pixelY?: 'top' | 'bottom' | number] *)
Inductive PixelYProp : Type :=
| PixelYLocation (location : XLocation)
| PixelYNumber (n : Q).

(** [pixelX?: 'left' | 'right' | number] *)
Inductive PixelXProp : Type :=
| PixelXLocation (location : YLocation)
| PixelXNumber (n : Q).

Definition Domain : Type := (Scalar * Scalar)%type.

Module XAxis.
Record t : Type := mk {
  formatSpecifier : option string;
  textProps : option TextProps.t;
  gridLineProps : option GridLineProps.t;
  nice : option NiceProp;
  labels : option XLabelsProp;
  labelPixelOffset : option XAxisPixelOffsetProp;
  pixelY : option PixelYProp;
  visibleX : option Domain
}.
Definition empty : t := mk None None None None None None None None.
End XAxis.

Module YAxis.
Record t : Type := mk {
  formatSpecifier : option string;
  textProps : option TextProps.t;
  gridLineProps : option GridLineProps.t;
  nice : option NiceProp;
  labels : option YLabelsProp;
  labelPixelOffset : option YAxisPixelOffsetProp;
  pixelX : option PixelXProp;
  visibleY : option Domain
}.
Definition empty : t := mk None None None None None None None None.
End YAxis.

(** A rendered element supplied by the caller. *)
Inductive Element : Type :=
| JSXElement (description : string).

Module CircleProps.
Record t : Type := mk {
  fill : option string;
  stroke : option string;
  strokeWidth : option Q;
  r : option Q;
  cx : option Q;
  cy : option Q
}.
Definition empty : t := mk None None None None None None.
Definition spread (a b : t) : t :=
  mk (TextProps.later (fill a) (fill b))
     (TextProps.later (stroke a) (stroke b))
     (TextProps.later (strokeWidth a) (strokeWidth b))
     (TextProps.later (r a) (r b))
     (TextProps.later (cx a) (cx b))
     (TextProps.later (cy a) (cy b)).
End CircleProps.

Definition DEFAULT_DOT_PROPS : CircleProps.t :=
  CircleProps.mk (Some "lightgray"%string) (Some "darkslategrey"%string)
                 (Some 1) (Some 5) None None.

(** [dotProps?: CircleProps | ((datum, pixelX, pixelY, index) =>
    CircleProps | JSX.Element)] *)
Inductive DotPropsProp : Type :=
| DotValue (props : CircleProps.t)
| DotFunction (f : Datum.t -> Q -> Q -> nat -> CircleProps.t + Element).

Module Props.
Record t : Type := mk {
  data : list Datum.t;
  width : Q;
  height : Q;
  paddingTop : option Q;
  paddingRight : option Q;
  paddingBottom : option Q;
  paddingLeft : option Q;
  dotProps : option DotPropsProp;
  xAxis : option XAxis.t;
  yAxis : option YAxis.t
}.
End Props.

(** ** The scale library, as the component uses it *)

Class ScaleLibrary : Type := {
  Scale : Type;
  (** [d3Scale.scaleLinear().domain(d).range(r)] *)
  scaleLinear : Domain -> Q * Q -> Scale;
  (** [d3Scale.scaleTime().domain(d).range(r)] *)
  scaleTime : Domain -> Q * Q -> Scale;
  (** [scale(v)] *)
  call : Scale -> Scalar -> Q;
  (** [scale.invert(pixel)] *)
  invert : Scale -> Q -> Scalar;
  (** [scale.nice(count)]; [None] is [undefined] *)
  nice : Scale -> option Q -> Scale;
  (** [scale.ticks(count)] *)
  ticks : Scale -> Q -> list Scalar;
  (** [scale.tickFormat(count, specifier)] *)
  tickFormat : Scale -> Q -> option string -> Scalar -> string;
  (** [scale.domain()], as primitive values, and [scale.range()] *)
  domain : Scale -> Q * Q;
  range : Scale -> Q * Q
}.

(** [v] lies between the two ends of [i], whichever way round they are. *)
Definition between (i : Q * Q) (v : Q) : Prop :=
  (fst i <= v /\ v <= snd i) \/ (snd i <= v /\ v <= fst i).

Definition pair_eq (a b : Q * Q) : Prop :=
  fst a == fst b /\ snd a == snd b.

Definition domain_values (d : Domain) : Q * Q :=
  (valueOf (fst d), valueOf (snd d)).

(** The interval [outer] contains [inner], end for end: an ascending
    domain has its first end lowered and its second raised, a descending
    one the reverse. *)
Definition widens (outer inner : Q * Q) : Prop :=
  (fst inner <= snd inner ->
   fst outer <= fst inner /\ snd inner <= snd outer) /\
  (snd inner < fst inner ->
   snd outer <= snd inner /\ fst inner <= fst outer).

(** What the specification assumes of a scale: it maps its domain
    monotonically onto its range, and nicing only moves the ends of the
    domain outwards. *)
Class ScaleContract (L : ScaleLibrary) : Prop := {
  domain_scaleLinear : forall d r, pair_eq (domain (scaleLinear d r)) (domain_values d);
  range_scaleLinear : forall d r, pair_eq (range (scaleLinear d r)) r;
  domain_scaleTime : forall d r, pair_eq (domain (scaleTime d r)) (domain_values d);
  range_scaleTime : forall d r, pair_eq (range (scaleTime d r)) r;
  range_nice : forall s count, pair_eq (range (nice s count)) (range s);
  domain_nice : forall s count, widens (domain (nice s count)) (domain s);
  call_between : forall s v,
    between (domain s) (valueOf v) -> between (range s) (call s v);
  call_first : forall s v,
    ~ fst (domain s) == snd (domain s) ->
    valueOf v == fst (domain s) -> call s v == fst (range s);
  call_last : forall s v,
    ~ fst (domain s) == snd (domain s) ->
    valueOf v == snd (domain s) -> call s v == snd (range s)
}.

(** ** The component *)

(** [array.map((e, i) => f(e, i))] *)
Fixpoint mapi_from {A B : Type} (f : A -> nat -> B) (i : nat) (l : list A)
  : list B :=
  match l with
  | [] => []
  | a :: rest => f a i :: mapi_from f (S i) rest
  end.

Definition mapi {A B : Type} (f : A -> nat -> B) (l : list A) : list B :=
  mapi_from f 0%nat l.

(** A tick handed to [toXAxisTicks]: a bare domain value from the scale,
    or a label from the props ([isXAxisLabel] tells them apart). *)
Inductive XTick : Type :=
| XTickValue (tick : Scalar)
| XTickLabel (label : XAxisLabel.t).

Inductive YTick : Type :=
| YTickValue (tick : Scalar)
| YTickLabel (label : YAxisLabel.t).

(** The [<Line>], [<Text>] and [<Rect>] elements the component returns. *)
Module Line.
Record t : Type := mk {
  x1 : Q; x2 : Q; y1 : Q; y2 : Q;
  props : LineProps.t
}.
End Line.

Module Text.
Record t : Type := mk { props : TextProps.t; children : string }.
End Text.

Module Rect.
Record t : Type := mk { width : Q; height : Q; x : Q; y : Q }.
End Rect.

Section LineGraph.
Context {L : ScaleLibrary}.

(** [_without.nice(count)] changes the scale in place and returns it;
    here the niced scale is a new value. *)
Definition maybeWithNice (_without : Scale) (nice_ : option NiceProp) : Scale :=
  match nice_ with
  | None => _without
  | Some NiceTrue => nice _without None
  | Some (NiceCount count) =>
      if truthy count then nice _without (Some count) else _without
  end.

Variable props : Props.t.

Definition data : list Datum.t := Props.data props.
Definition width : Q := Props.width props.
Definition height : Q := Props.height props.
Definition paddingTop : Q :=
  with_default (Props.paddingTop props) DEFAULT_PADDING_TOP.
Definition paddingRight : Q :=
  with_default (Props.paddingRight props) DEFAULT_PADDING_RIGHT.
Definition paddingBottom : Q :=
  with_default (Props.paddingBottom props) DEFAULT_PADDING_BOTTOM.
Definition paddingLeft : Q :=
  with_default (Props.paddingLeft props) DEFAULT_PADDING_LEFT.
Definition dotProps : option DotPropsProp := Props.dotProps props.
Definition xAxis : option XAxis.t := Props.xAxis props.
Definition yAxis : option YAxis.t := Props.yAxis props.

Definition chartBottomPixel : Q := height - paddingBottom.
Definition chartLeftPixel : Q := paddingLeft.
Definition chartTopPixel : Q := paddingTop.
Definition chartRightPixel : Q := width - paddingRight.
Definition chartWidthPixel : Q := chartRightPixel - chartLeftPixel.
Definition chartHeightPixel : Q := chartBottomPixel - chartTopPixel.

Definition defaultDomain (key : Datum.t -> Scalar) : result Domain :=
  let values := map key data in
  lowest <- min values ;;
  highest <- max values ;;
  Ok (lowest, highest).

(** [xAxis?.visibleX || defaultDomain('x') || []]: an array is truthy,
    so [defaultDomain] runs only without [visibleX] and the final [[]]
    is never reached. *)
Definition xDomain : result Domain :=
  match chain xAxis XAxis.visibleX with
  | Some visibleX => Ok visibleX
  | None => defaultDomain Datum.x
  end.

(** [data[0] && data[0].x instanceof Date] *)
Definition _xBeforeNice : result Scale :=
  xDomain <- xDomain ;;
  Ok (if match nth_error data 0 with
         | Some d => instanceofDate (Datum.x d)
         | None => false
         end
      then scaleTime xDomain (chartLeftPixel, chartRightPixel)
      else scaleLinear xDomain (chartLeftPixel, chartRightPixel)).

Definition xScale : result Scale :=
  _without <- _xBeforeNice ;;
  Ok (maybeWithNice _without (chain xAxis XAxis.nice)).

Definition yDomain : result Domain :=
  match chain yAxis YAxis.visibleY with
  | Some visibleY => Ok visibleY
  | None => defaultDomain Datum.y
  end.

Definition _yBeforeNice : result Scale :=
  yDomain <- yDomain ;;
  Ok (if match nth_error data 0 with
         | Some d => instanceofDate (Datum.y d)
         | None => false
         end
      then scaleTime yDomain (chartBottomPixel, chartTopPixel)
      else scaleLinear yDomain (chartBottomPixel, chartTopPixel)).

Definition yScale : result Scale :=
  _without <- _yBeforeNice ;;
  Ok (maybeWithNice _without (chain yAxis YAxis.nice)).

(** The rest of the component runs once both scales are built: inside
    this section [xScale] and [yScale] are those two scales. *)
Section Closure.
Variables xScale yScale : Scale.

Definition dotData : list (CircleProps.t + Element) :=
  mapi (fun d i =>
    let x := call xScale (Datum.x d) in
    let y := call yScale (Datum.y d) in
    let circleProps : option (CircleProps.t + Element) :=
      match dotProps with
      | Some (DotFunction f) => Some (f d x y i)
      | Some (DotValue c) => Some (inl c)
      | None => None
      end in
    match circleProps with
    | Some (inr element) => inr element
    | Some (inl c) =>
        inl (CircleProps.spread (CircleProps.spread DEFAULT_DOT_PROPS c)
               (CircleProps.mk None None None None (Some x) (Some y)))
    | None =>
        inl (CircleProps.spread DEFAULT_DOT_PROPS
               (CircleProps.mk None None None None (Some x) (Some y)))
    end) data.

Definition dots : list (CircleProps.t + Element) := dotData.

Definition xTickCount : Q :=
  match chain xAxis XAxis.labels with
  | Some (XLabelCount n) => n
  | _ => inject_Z (Z.of_nat (List.length data))
  end.
Definition xTickFormat : option string := chain xAxis XAxis.formatSpecifier.
Definition xFormatFunction : Scalar -> string :=
  tickFormat xScale xTickCount xTickFormat.

Definition xGridLineProps : option GridLineProps.t :=
  chain xAxis XAxis.gridLineProps.
Definition xStartExtend : Q :=
  num_or (chain xGridLineProps GridLineProps.startExtendPixels)
         DEFAULT_XAXIS_TOP_EXTEND.
Definition xEndExtend : Q :=
  num_or (chain xGridLineProps GridLineProps.endExtendPixels)
         DEFAULT_XAXIS_BOTTOM_EXTEND.

Definition xTickToGridLine (_x : Scalar) (pixelX : Q) : GridLine.t :=
  let y1 := invert yScale (chartTopPixel - xStartExtend) in
  let pixelY1 := call yScale y1 in
  let y2 := invert yScale (chartBottomPixel + xEndExtend) in
  let pixelY2 := call yScale y2 in
  GridLine.mk (PointData.mk _x y1 pixelX pixelY1)
              (PointData.mk _x y2 pixelX pixelY2).

Definition yTickCount : Q :=
  match chain yAxis YAxis.labels with
  | Some (YLabelCount n) => n
  | _ => inject_Z (Z.of_nat (List.length data))
  end.
Definition yTickFormat : option string := chain yAxis YAxis.formatSpecifier.
Definition yFormatFunction : Scalar -> string :=
  tickFormat yScale yTickCount yTickFormat.

Definition yGridLineProps : option GridLineProps.t :=
  chain yAxis YAxis.gridLineProps.
Definition yStartExtend : Q :=
  num_or (chain yGridLineProps GridLineProps.startExtendPixels)
         DEFAULT_YAXIS_LEFT_EXTEND.
Definition yEndExtend : Q :=
  num_or (chain yGridLineProps GridLineProps.endExtendPixels)
         DEFAULT_YAXIS_RIGHT_EXTEND.

Definition yTickToGridLine (_y : Scalar) (pixelY : Q) : GridLine.t :=
  let x1 := invert xScale (chartLeftPixel - yStartExtend) in
  let pixelX0 := call xScale x1 in
  let x2 := invert xScale (chartRightPixel + yEndExtend) in
  let pixelX1 := call xScale x2 in
  GridLine.mk (PointData.mk x1 _y pixelX0 pixelY)
              (PointData.mk x2 _y pixelX1 pixelY).

Definition xLocationToPixelY (location : XLocation) : Q :=
  match location with
  | top => chartTopPixel - 4
  | bottom => chartBottomPixel + 12
  end.

(** [xAxis?.pixelY || 'bottom'] *)
Definition xAxisLocation : PixelYProp :=
  match chain xAxis XAxis.pixelY with
  | Some (PixelYNumber n) =>
      if truthy n then PixelYNumber n else PixelYLocation bottom
  | Some (PixelYLocation location) => PixelYLocation location
  | None => PixelYLocation bottom
  end.

Definition defaultXAxisPixelY : Q :=
  match xAxisLocation with
  | PixelYNumber n => n
  | PixelYLocation location => xLocationToPixelY location
  end.

Definition yLocationToPixelX (location : YLocation) : Q :=
  match location with
  | left => chartLeftPixel - 4
  | right => chartRightPixel + 4
  end.

Definition yLocationToAnchor (location : YLocation) : string :=
  match location with
  | left => "end"
  | right => "start"
  end.

(** [yAxis?.pixelX || 'left'] *)
Definition yAxisLocation : PixelXProp :=
  match chain yAxis YAxis.pixelX with
  | Some (PixelXNumber n) =>
      if truthy n then PixelXNumber n else PixelXLocation left
  | Some (PixelXLocation location) => PixelXLocation location
  | None => PixelXLocation left
  end.

Definition defaultYAxisPixelX : Q :=
  match yAxisLocation with
  | PixelXNumber n => n
  | PixelXLocation location => yLocationToPixelX location
  end.

Definition defaultYTextAnchor : string :=
  match yAxisLocation with
  | PixelXNumber _ => "start"
  | PixelXLocation location => yLocationToAnchor location
  end.

Definition xTextLabelProps (pixelX pixelY : Q) (offset : PixelOffset.t)
  : TextProps.t :=
  TextProps.spread
    (TextProps.spread DEFAULT_XAXIS_TEXT_PROPS
       (with_default (chain xAxis XAxis.textProps) TextProps.empty))
    (TextProps.mk None None
       (Some (pixelX + PixelOffset.horizontal offset))
       (Some (pixelY + PixelOffset.vertical offset))).

Definition yTextLabelProps (pixelX pixelY : Q) (offset : PixelOffset.t)
  : TextProps.t :=
  TextProps.spread
    (TextProps.spread
       (TextProps.spread DEFAULT_YAXIS_TEXT_PROPS
          (TextProps.mk None (Some defaultYTextAnchor) None None))
       (with_default (chain yAxis YAxis.textProps) TextProps.empty))
    (TextProps.mk None None
       (Some (pixelX + PixelOffset.horizontal offset))
       (Some (pixelY + PixelOffset.vertical offset))).

Definition xLabelToAxisTick (label : XAxisLabel.t) (offset : PixelOffset.t)
  : AxisTick.t :=
  let pixelY := defaultXAxisPixelY in
  let _y := invert yScale pixelY in
  let pixelX := call xScale (XAxisLabel.x label) in
  let _x := XAxisLabel.x label in
  AxisTick.mk _x _y pixelX pixelY (XAxisLabel.text label)
    (xTextLabelProps pixelX pixelY offset)
    (xTickToGridLine _x pixelX).

Definition yLabelToAxisTick (label : YAxisLabel.t) (offset : PixelOffset.t)
  : AxisTick.t :=
  let pixelX := defaultYAxisPixelX in
  let _x := invert xScale pixelX in
  let pixelY := call yScale (YAxisLabel.y label) in
  let _y := YAxisLabel.y label in
  AxisTick.mk _x _y pixelX pixelY (YAxisLabel.text label)
    (yTextLabelProps pixelX pixelY offset)
    (yTickToGridLine _y pixelY).

(** [isFunction], then [isXPixelOffset], then the default. *)
Definition xLabelToPixelOffset (label : XAxisLabel.t) (index : nat)
  (_pixelOffset : option XAxisPixelOffsetProp) : PixelOffset.t :=
  match _pixelOffset with
  | Some (XOffsetFunction f) => f label index
  | Some (XOffsetValue offset) => offset
  | None => DEFAULT_OFFSET
  end.

Definition yLabelToPixelOffset (label : YAxisLabel.t) (index : nat)
  (_pixelOffset : option YAxisPixelOffsetProp) : PixelOffset.t :=
  match _pixelOffset with
  | Some (YOffsetFunction f) => f label index
  | Some (YOffsetValue offset) => offset
  | None => DEFAULT_OFFSET
  end.

Definition xTickToAxisTick (tick : Scalar) (index : nat)
  (offsetProp : option XAxisPixelOffsetProp) : AxisTick.t :=
  let text := xFormatFunction tick in
  let tempLabel := XAxisLabel.mk tick text in
  xLabelToAxisTick tempLabel (xLabelToPixelOffset tempLabel index offsetProp).

Definition yTickToAxisTick (tick : Scalar) (index : nat)
  (offsetProp : option YAxisPixelOffsetProp) : AxisTick.t :=
  let text := yFormatFunction tick in
  let tempLabel := YAxisLabel.mk tick text in
  yLabelToAxisTick tempLabel (yLabelToPixelOffset tempLabel index offsetProp).

Definition toXAxisTicks (ticks_ : list XTick) : list AxisTick.t :=
  mapi (fun tick i =>
    match tick with
    | XTickLabel label =>
        xLabelToAxisTick label
          (xLabelToPixelOffset label i (chain xAxis XAxis.labelPixelOffset))
    | XTickValue v =>
        xTickToAxisTick v i (chain xAxis XAxis.labelPixelOffset)
    end) ticks_.

Definition toYAxisTicks (ticks_ : list YTick) : list AxisTick.t :=
  mapi (fun tick i =>
    match tick with
    | YTickLabel label =>
        yLabelToAxisTick label
          (yLabelToPixelOffset label i (chain yAxis YAxis.labelPixelOffset))
    | YTickValue v =>
        yTickToAxisTick v i (chain yAxis YAxis.labelPixelOffset)
    end) ticks_.

Definition xLabels : option XLabelsProp := chain xAxis XAxis.labels.

(** [xLabels instanceof Array ? xLabels : xScale.ticks(xTickCount)] *)
Definition xTicks : list XTick :=
  match xLabels with
  | Some (XLabelArray labels) => map XTickLabel labels
  | _ => map XTickValue (ticks xScale xTickCount)
  end.

Definition xAxisTicks : list AxisTick.t := toXAxisTicks xTicks.

Definition XTickLabels : list Text.t :=
  map (fun tick => Text.mk (AxisTick.textProps tick) (AxisTick.text tick))
      xAxisTicks.

Definition toStrokeArray (gridLineProps : option GridLineProps.t)
  : LineProps.t :=
  let strokeType :=
    with_default (chain gridLineProps GridLineProps.strokeType)
                 DEFAULT_GRIDLINE_STROKE_TYPE in
  match strokeType with
  | dashed =>
      LineProps.mk None None (Some DEFAULT_DASHED_DASHARRAY) None None
  | dotted =>
      LineProps.mk None (Some DEFAULT_DOTTED_WIDTH)
                   (Some DEFAULT_DOTTED_DASHARRAY) (Some "round"%string) None
  | none => LineProps.mk (Some "#0000"%string) None None None None
  | solid => LineProps.empty
  end.

Definition gridLineToLine (mergedProps : LineProps.t) (tick : AxisTick.t)
  : Line.t :=
  let gridLine := AxisTick.gridLine tick in
  Line.mk (PointData.pixelX (GridLine.p1 gridLine))
          (PointData.pixelX (GridLine.p2 gridLine))
          (PointData.pixelY (GridLine.p1 gridLine))
          (PointData.pixelY (GridLine.p2 gridLine))
          mergedProps.

Definition XGridLines : list Line.t :=
  let mergedProps :=
    LineProps.spread
      (LineProps.spread DEFAULT_GRIDLINE_LINE_PROPS
                        (toStrokeArray xGridLineProps))
      (match xGridLineProps with
       | Some g => GridLineProps.lineProps g
       | None => LineProps.empty
       end) in
  map (gridLineToLine mergedProps) xAxisTicks.

Definition yLabel : option YLabelsProp := chain yAxis YAxis.labels.

Definition yTicks : list YTick :=
  match yLabel with
  | Some (YLabelArray labels) => map YTickLabel labels
  | _ => map YTickValue (ticks yScale yTickCount)
  end.

Definition yAxisTicks : list AxisTick.t := toYAxisTicks yTicks.

Definition YTickLabels : list Text.t :=
  map (fun tick => Text.mk (AxisTick.textProps tick) (AxisTick.text tick))
      yAxisTicks.

Definition YGridLines : list Line.t :=
  let mergedProps :=
    LineProps.spread
      (LineProps.spread DEFAULT_GRIDLINE_LINE_PROPS
                        (toStrokeArray yGridLineProps))
      (match yGridLineProps with
       | Some g => GridLineProps.lineProps g
       | None => LineProps.empty
       end) in
  map (gridLineToLine mergedProps) yAxisTicks.
End Closure.

(** What the component hands to the renderer.  The curve path, the title
    and the [children] callback take no part in the coordinate and tick
    pipeline and are left out; [scaleInfoX] and [scaleInfoY] are the two
    fields of [scaleInfo]. *)
Record Rendered : Type := mkRendered {
  scaleInfoX : Scale;
  scaleInfoY : Scale;
  graphRect : Rect.t;
  renderedXGridLines : list Line.t;
  renderedYGridLines : list Line.t;
  renderedDots : list (CircleProps.t + Element);
  renderedXTickLabels : list Text.t;
  renderedYTickLabels : list Text.t
}.

Definition LineGraph : result Rendered :=
  xScale <- xScale ;;
  yScale <- yScale ;;
  Ok (mkRendered xScale yScale
        (Rect.mk chartWidthPixel chartHeightPixel chartLeftPixel chartTopPixel)
        (XGridLines xScale yScale)
        (YGridLines xScale yScale)
        (dots xScale yScale)
        (XTickLabels xScale yScale)
        (YTickLabels xScale yScale)).
End LineGraph.


(** ** An executable scale library

    The continuous scale of d3-scale in exact arithmetic: a scale is its
    domain and range, applied by normalising over the domain and
    interpolating over the range ([bimap]); a time scale is the same map
    over time values, and inverts to a [Date].  Nicing and tick placement
    follow the decimal tick increments of linear scales; the calendar
    intervals a time scale uses depend on the host's time zone and are
    not modelled, so a time scale nices and ticks by the same increments
    over its millisecond values.  This is not the library in IEEE doubles,
    where a rounded product can move a niced end by one step. *)
Module AffineScale.

Inductive Kind : Type := Linear | Time.

Record t : Type := mk {
  kind : Kind;
  domain_ : Q * Q;
  range_ : Q * Q
}.

(** [normalize(a, b)(x)]: a domain of one point normalises to [0.5]. *)
Definition normalize (a b x : Q) : Q :=
  if Qeq_bool (b - a) 0 then 1 # 2 else (x - a) / (b - a).

(** [interpolateNumber(a, b)(t)] *)
Definition interpolateNumber (a b t : Q) : Q := a * (1 - t) + b * t.

Definition bimap (d r : Q * Q) (x : Q) : Q :=
  let (d0, d1) := d in
  let (r0, r1) := r in
  if Qltb d1 d0
  then interpolateNumber r1 r0 (normalize d1 d0 x)
  else interpolateNumber r0 r1 (normalize d0 d1 x).

(** [new Date(v)] keeps the integer part of [v]. *)
Definition Qtruncate (q : Q) : Z := Z.quot (Qnum q) (Zpos (Qden q)).

Definition wrap (k : Kind) (v : Q) : Scalar :=
  match k with
  | Linear => SNumber v
  | Time => SDate (Qtruncate v)
  end.

Definition scaleLinear_ (d : Domain) (r : Q * Q) : t :=
  mk Linear (domain_values d) r.

Definition scaleTime_ (d : Domain) (r : Q * Q) : t :=
  mk Time (domain_values d) r.

Definition call_ (s : t) (v : Scalar) : Q :=
  bimap (domain_ s) (range_ s) (valueOf v).

Definition invert_ (s : t) (pixel : Q) : Scalar :=
  wrap (kind s) (bimap (range_ s) (domain_ s) pixel).

(** [Math.floor(Math.log(q) / Math.LN10)] for a positive [q], by repeated
    division or multiplication by ten. *)
Fixpoint log10_up (fuel : nat) (q : Q) (k : Z) : Z :=
  match fuel with
  | O => k
  | S fuel' => if Qle_bool 10 q then log10_up fuel' (q / 10) (k + 1) else k
  end.

Fixpoint log10_down (fuel : nat) (q : Q) (k : Z) : Z :=
  match fuel with
  | O => k
  | S fuel' => if Qltb q 1 then log10_down fuel' (q * 10) (k - 1) else k
  end.

Definition floor_log10 (q : Q) : Z :=
  let fuel := S (Z.to_nat (Z.log2 (Z.max (Qnum q) (Zpos (Qden q))))) in
  if Qle_bool 1 q then log10_up fuel q 0 else log10_down fuel q 0.

(** [tickIncrement(start, stop, count)]; [None] where the library computes
    a value that is not finite (a count or a span that is not positive).
    A negative increment [-k] stands for the step [1/k].  The thresholds
    [sqrt 50], [sqrt 10] and [sqrt 2] are compared by their squares. *)
Definition tickIncrement (start stop count : Q) : option Q :=
  if Qle_bool count 0 then None
  else
    let step := (stop - start) / count in
    if Qle_bool step 0 then None
    else
      let power := floor_log10 step in
      let error := step / Qpower 10 power in
      let factor : Q :=
        if Qle_bool 50 (error * error) then 10
        else if Qle_bool 10 (error * error) then 5
        else if Qle_bool 2 (error * error) then 2
        else 1 in
      Some (if (0 <=? power)%Z
            then factor * Qpower 10 power
            else - Qpower 10 (- power) / factor).

Definition Qfloor_ (q : Q) : Q := inject_Z (Qfloor q).
Definition Qceil_ (q : Q) : Q := inject_Z (Qceiling q).

(** One rounding of [start] down and [stop] up to the increment. *)
Definition round_out (step start stop : Q) : Q * Q :=
  if Qltb 0 step
  then (Qfloor_ (start / step) * step, Qceil_ (stop / step) * step)
  else (Qceil_ (start * step) / step, Qfloor_ (stop * step) / step).

(** [scale.nice(count)]: two roundings, the second with the increment of
    the domain the first produced; the domain is left as it is when no
    finite increment exists. *)
Definition nice_ (s : t) (count : option Q) : t :=
  let count := with_default count 10 in
  let (d0, d1) := domain_ s in
  let reversed := Qltb d1 d0 in
  let start := if reversed then d1 else d0 in
  let stop := if reversed then d0 else d1 in
  match tickIncrement start stop count with
  | None => s
  | Some step =>
      let (start', stop') := round_out step start stop in
      match tickIncrement start' stop' count with
      | None => s
      | Some step' =>
          let (lo, hi) := round_out step' start' stop' in
          mk (kind s) (if reversed then (hi, lo) else (lo, hi)) (range_ s)
      end
  end.

(** [ticks(start, stop, count)] of d3-array. *)
Definition d3_ticks (start stop count : Q) : list Q :=
  if Qeq_bool start stop && Qltb 0 count then [start]
  else
    let reverse := Qltb stop start in
    let lo := if reverse then stop else start in
    let hi := if reverse then start else stop in
    let values :=
      match tickIncrement lo hi count with
      | None => []
      | Some step =>
          if Qltb 0 step then
            let a := Qceiling (lo / step) in
            let b := Qfloor (hi / step) in
            map (fun i => inject_Z (a + Z.of_nat i) * step)
                (seq 0 (Z.to_nat (b - a + 1)))
          else
            let a := Qceiling (lo * - step) in
            let b := Qfloor (hi * - step) in
            map (fun i => inject_Z (a + Z.of_nat i) / - step)
                (seq 0 (Z.to_nat (b - a + 1)))
      end in
    if reverse then rev values else values.

Definition ticks_ (s : t) (count : Q) : list Scalar :=
  map (wrap (kind s)) (d3_ticks (fst (domain_ s)) (snd (domain_ s)) count).

(** Tick text: the value written as an integer or a fraction.  The
    specifier and the locale rules of the library are not modelled. *)
Definition Z_to_string (z : Z) : string :=
  NilZero.string_of_int (Z.to_int z).

Definition tickFormat_ (s : t) (count : Q) (specifier : option string)
  (v : Scalar) : string :=
  let q := Qred (valueOf v) in
  match Qden q with
  | xH => Z_to_string (Qnum q)
  | d => Z_to_string (Qnum q) ++ "/" ++ Z_to_string (Zpos d)
  end%string.

#[export] Instance library : ScaleLibrary := {
  Scale := t;
  scaleLinear := scaleLinear_;
  scaleTime := scaleTime_;
  call := call_;
  invert := invert_;
  nice := nice_;
  ticks := ticks_;
  tickFormat := tickFormat_;
  domain := domain_;
  range := range_
}.

End AffineScale.

(** ** Curves and the connecting path *)

(** [type PredefinedCurve]: the curve names a caller may give. *)
Module PredefinedCurve.
Inductive t : Type :=
| basis | basisClosed | basisOpen | bundle
| cardinal | cardinalClosed | cardinalOpen
| catmullRom | catmullRomClosed | catmullRomOpen
| linear | linearClosed | monotoneX | monotoneY
| natural | step | stepAfter | stepBefore.
End PredefinedCurve.

(** The curve factories of d3-shape the component names, and a factory
    made by the caller. *)
Module d3Shape.
Inductive CurveFactory : Type :=
| curveBasis | curveBasisClosed | curveBasisOpen | curveBundle
| curveCardinal | curveCardinalClosed | curveCardinalOpen
| curveCatmullRom | curveCatmullRomClosed | curveCatmullRomOpen
| curveLinear | curveLinearClosed | curveMonotoneX | curveMonotoneY
| curveNatural | curveStep | curveStepAfter | curveStepBefore
| customFactory (name : string).
End d3Shape.

Definition DEFAULT_CURVE : d3Shape.CurveFactory := d3Shape.curveNatural.

(** [predefinedToCurve(pre?)]: [None] is the [default] branch. *)
Definition predefinedToCurve (pre : option PredefinedCurve.t)
  : d3Shape.CurveFactory :=
  match pre with
  | Some PredefinedCurve.basis => d3Shape.curveBasis
  | Some PredefinedCurve.basisClosed => d3Shape.curveBasisClosed
  | Some PredefinedCurve.basisOpen => d3Shape.curveBasisOpen
  | Some PredefinedCurve.bundle => d3Shape.curveBundle
  | Some PredefinedCurve.cardinal => d3Shape.curveCardinal
  | Some PredefinedCurve.cardinalClosed => d3Shape.curveCardinalClosed
  | Some PredefinedCurve.cardinalOpen => d3Shape.curveCardinalOpen
  | Some PredefinedCurve.catmullRom => d3Shape.curveCatmullRom
  | Some PredefinedCurve.catmullRomClosed => d3Shape.curveCatmullRomClosed
  | Some PredefinedCurve.catmullRomOpen => d3Shape.curveCatmullRomOpen
  | Some PredefinedCurve.linear => d3Shape.curveLinear
  | Some PredefinedCurve.linearClosed => d3Shape.curveLinearClosed
  | Some PredefinedCurve.monotoneX => d3Shape.curveMonotoneX
  | Some PredefinedCurve.monotoneY => d3Shape.curveMonotoneY
  | Some PredefinedCurve.natural => d3Shape.curveNatural
  | Some PredefinedCurve.step => d3Shape.curveStep
  | Some PredefinedCurve.stepAfter => d3Shape.curveStepAfter
  | Some PredefinedCurve.stepBefore => d3Shape.curveStepBefore
  | None => DEFAULT_CURVE
  end.

(** [type Curve = PredefinedCurve | CurveFactory | CurveFactoryLineOnly] *)
Inductive Curve : Type :=
| CurveName (name : PredefinedCurve.t)
| CurveFunction (factory : d3Shape.CurveFactory).

(** [toCurve(curve?)]: a string goes through [predefinedToCurve]; a
    factory is truthy and is returned; [undefined] gives the default. *)
Definition toCurve (curve : option Curve) : d3Shape.CurveFactory :=
  match curve with
  | Some (CurveName name) => predefinedToCurve (Some name)
  | Some (CurveFunction factory) => factory
  | None => DEFAULT_CURVE
  end.

(** [PathProps], with the fields of [LineProps] and the path data [d]. *)
Module PathProps.
Record t : Type := mk {
  d : option string;
  stroke : option string;
  strokeWidth : option Q;
  fill : option string
}.
Definition empty : t := mk None None None None.
Definition spread (a b : t) : t :=
  mk (TextProps.later (d a) (d b))
     (TextProps.later (stroke a) (stroke b))
     (TextProps.later (strokeWidth a) (strokeWidth b))
     (TextProps.later (fill a) (fill b)).
End PathProps.

Definition DEFAULT_LINE_PROPS : PathProps.t :=
  PathProps.mk None (Some "gray"%string) (Some 1) (Some "#0000"%string).

(** [lineProps?: PathProps | ((data) => PathProps | typeof Line)] *)
Inductive LinePropsProp : Type :=
| LineValue (props : PathProps.t)
| LineFunction (f : list Datum.t -> PathProps.t + Element).

(** The props of the component beside those of [Props.t] that the curve
    reads. *)
Module PathOptions.
Record t : Type := mk {
  lineProps : option LinePropsProp;
  curve : option Curve
}.
End PathOptions.

(** [d3Shape.line().x(..).y(..).curve(c)(data)], as a function of the
    curve and of the points the two accessors return; [None] is [null]. *)
Class ShapeLibrary : Type := {
  line : d3Shape.CurveFactory -> list (Q * Q) -> option string
}.

Section LineComponent.
Context {L : ScaleLibrary} {G : ShapeLibrary}.
Variable props : Props.t.
Variable options : PathOptions.t.
Variables xScale yScale : Scale.

(** The points of the path: [xScale(x)], [yScale(y)] of each datum. *)
Definition linePoints : list (Q * Q) :=
  map (fun e => (call xScale (Datum.x e), call yScale (Datum.y e))) (data props).

Definition lineGen : option string :=
  line (toCurve (PathOptions.curve options)) linePoints.

(** [{ d: lineGen() || '', ...DEFAULT_LINE_PROPS }] ([null] and the empty
    path both give the empty string), then the caller's props spread over
    it; an element returned by the caller's function replaces the path. *)
Definition LineComponent : PathProps.t + Element :=
  let pathProps :=
    PathProps.spread
      (PathProps.mk (Some (with_default lineGen EmptyString)) None None None)
      DEFAULT_LINE_PROPS in
  match PathOptions.lineProps options with
  | Some (LineFunction f) =>
      match f (data props) with
      | inr element => inr element
      | inl newProps => inl (PathProps.spread pathProps newProps)
      end
  | Some (LineValue lineProps) => inl (PathProps.spread pathProps lineProps)
  | None => inl pathProps
  end.

End LineComponent.

(** An executable line generator: the points joined by straight segments,
    [M x,y L x,y ...], whatever the curve; no point gives [null]. *)
Module Polyline.

Definition number_text (q : Q) : string :=
  let r := Qred q in
  match Qden r with
  | xH => AffineScale.Z_to_string (Qnum r)
  | den => AffineScale.Z_to_string (Qnum r) ++ "/" ++ AffineScale.Z_to_string (Zpos den)
  end%string.

Definition point_text (pt : Q * Q) : string :=
  (number_text (fst pt) ++ "," ++ number_text (snd pt))%string.

Definition line_ (factory : d3Shape.CurveFactory) (points : list (Q * Q))
  : option string :=
  match points with
  | [] => None
  | first :: rest =>
      Some (fold_left (fun path pt => path ++ "L" ++ point_text pt)
                      rest ("M" ++ point_text first))%string
  end.

#[export] Instance library : ShapeLibrary := { line := line_ }.

End Polyline.

(** ** Specification vocabulary *)

(** [d] is a least and a greatest element of [values]. *)
Definition is_min_max (values : list Scalar) (d : Domain) : Prop :=
  In (fst d) values /\ In (snd d) values /\
  forall v, In v values -> valueOf (fst d) <= valueOf v <= valueOf (snd d).

(** ** Running examples *)

Definition example_data : list Datum.t :=
  [Datum.mk (SNumber 0) (SNumber 0); Datum.mk (SNumber 10) (SNumber 10)].

Definition plain_props (data : list Datum.t) (width height : Q)
  (padding : option Q) (xAxis : option XAxis.t) (yAxis : option YAxis.t)
  : Props.t :=
  Props.mk data width height padding padding padding padding None xAxis yAxis.

(** The example of the specification: a 100 by 100 chart without padding. *)
Definition spec_example : Props.t :=
  plain_props example_data 100 100 (Some 0) None None.

(** The same data with the default padding: the chart rectangle is
    [20, 90] by [10, 80]. *)
Definition padded_example : Props.t :=
  plain_props example_data 100 100 None None None.

(** A width smaller than the horizontal padding. *)
Definition narrow_example : Props.t :=
  plain_props example_data 10 100 None None None.

(** Explicit visible ranges on both axes. *)
Definition visible_example (data : list Datum.t) : Props.t :=
  plain_props data 100 100 None
    (Some (XAxis.mk None None None None None None None
             (Some (SNumber 2, SNumber 8))))
    (Some (YAxis.mk None None None None None None None
             (Some (SNumber 1, SNumber 9)))).

(** One labelled tick on each axis, each label shifted by a pixel offset. *)
Definition offset_example : Props.t :=
  plain_props example_data 100 100 None
    (Some (XAxis.mk None None None None
             (Some (XLabelArray [XAxisLabel.mk (SNumber 5) "five"]))
             (Some (XOffsetValue (PixelOffset.mk 7 3))) None None))
    (Some (YAxis.mk None None None None
             (Some (YLabelArray [YAxisLabel.mk (SNumber 5) "five"]))
             (Some (YOffsetFunction (fun _ i => PixelOffset.mk 2 (inject_Z (Z.of_nat i) + 9))))
             None None)).

(** A constant series: the y domain is the single point 5. *)
Definition flat_example : Props.t :=
  plain_props [Datum.mk (SNumber 0) (SNumber 5); Datum.mk (SNumber 10) (SNumber 5)]
    100 100 None
    (Some (XAxis.mk None None None None (Some (XLabelCount 2)) None None None))
    (Some (YAxis.mk None None None None (Some (YLabelCount 2)) None None None)).

(** Dates on the x axis of the first datum only. *)
Definition dated_example : Props.t :=
  plain_props [Datum.mk (SDate 1000) (SNumber 1); Datum.mk (SNumber 2000) (SDate 5)]
    100 100 None None None.

(** Numeric label positions: 0 on the x axis, 33 on the y axis. *)
Definition pixel_example (n m : Q) : Props.t :=
  plain_props example_data 100 100 None
    (Some (XAxis.mk None None None None None None (Some (PixelYNumber n)) None))
    (Some (YAxis.mk None None None None None None (Some (PixelXNumber m)) None)).

(** Gridlines extended by 3 and 4 pixels, with nicing and tick counts. *)
Definition extended_example : Props.t :=
  plain_props example_data 100 100 None
    (Some (XAxis.mk None None
             (Some (GridLineProps.mk LineProps.empty (Some 3) (Some 4) (Some dashed)))
             (Some NiceTrue) (Some (XLabelCount 2)) None None None))
    (Some (YAxis.mk None None
             (Some (GridLineProps.mk LineProps.empty (Some 3) None None))
             (Some (NiceCount 5)) (Some (YLabelCount 2)) None None None)).

(** Closed comparisons of rationals, by evaluation. *)
Ltac q_eval :=
  repeat match goal with
  | |- _ /\ _ => split
  | |- ~ _ => let H := fresh in intro H; vm_compute in H; try discriminate H;
              try (apply H; reflexivity); try contradiction
  | |- _ => vm_compute; first [reflexivity | discriminate | (intro; discriminate)]
  end.

(** A dot function that draws the first datum itself and styles the
    others by their index. *)
Definition dot_function_example : Props.t :=
  Props.mk example_data 100 100 None None None None
    (Some (DotFunction (fun d pixelX pixelY i =>
       match i with
       | O => inr (JSXElement "star")
       | _ => inl (CircleProps.mk (Some "red"%string) None None
                                  (Some (inject_Z (Z.of_nat i))) (Some 0) (Some 0))
       end)))
    None None.

(** The circle the component draws for user props [user] at a pixel. *)
Definition drawn_circle (user : CircleProps.t) (pixelX pixelY : Q) : CircleProps.t :=
  CircleProps.spread (CircleProps.spread DEFAULT_DOT_PROPS user)
    (CircleProps.mk None None None None (Some pixelX) (Some pixelY)).

(** The stroke props of a gridline drawn for the gridline props [g]. *)
Definition styled_as (g : option GridLineProps.t) (p : LineProps.t) : Prop :=
  let user := match g with
              | Some g => GridLineProps.lineProps g
              | None => LineProps.empty
              end in
  let strokeType := with_default (chain g GridLineProps.strokeType) solid in
  LineProps.stroke p =
    Some (with_default (LineProps.stroke user)
            (match strokeType with none => "#0000" | _ => "lightgray" end)%string) /\
  LineProps.strokeDasharray p =
    match LineProps.strokeDasharray user, strokeType with
    | Some dash, _ => Some dash
    | None, dashed => Some "5, 5"%string
    | None, dotted => Some "1, 5"%string
    | None, _ => None
    end /\
  LineProps.strokeWidth p =
    match LineProps.strokeWidth user, strokeType with
    | Some w, _ => Some w
    | None, dotted => Some 2
    | None, _ => None
    end /\
  LineProps.strokeLinecap p =
    match LineProps.strokeLinecap user, strokeType with
    | Some cap, _ => Some cap
    | None, dotted => Some "round"%string
    | None, _ => None
    end /\
  LineProps.fill p = LineProps.fill user.

(** The domain value of a tick handed to [toXAxisTicks], [toYAxisTicks]. *)
Definition xTickValue (t : XTick) : Scalar :=
  match t with
  | XTickLabel label => XAxisLabel.x label
  | XTickValue v => v
  end.

Definition yTickValue (t : YTick) : Scalar :=
  match t with
  | YTickLabel label => YAxisLabel.y label
  | YTickValue v => v
  end.

(** Nicing is off: the prop is absent or is the number 0. *)
Definition nice_off (n : option NiceProp) : Prop :=
  n = None \/ exists count, n = Some (NiceCount count) /\ count == 0.

(** The label of a tick handed to [toXAxisTicks], [toYAxisTicks]: the
    label itself, or the tick value with its formatted text. *)
Definition xLabelOfTick {L : ScaleLibrary} (props : Props.t) (xs : Scale)
  (t : XTick) : XAxisLabel.t :=
  match t with
  | XTickLabel label => label
  | XTickValue v => XAxisLabel.mk v (xFormatFunction props xs v)
  end.

Definition yLabelOfTick {L : ScaleLibrary} (props : Props.t) (ys : Scale)
  (t : YTick) : YAxisLabel.t :=
  match t with
  | YTickLabel label => label
  | YTickValue v => YAxisLabel.mk v (yFormatFunction props ys v)
  end.

(** Numeric label positions together with label offsets: x labels at
    pixel y = 7 shifted by (0, 3), y labels at pixel x = 0 shifted by
    (2, 0). *)
Definition shifted_pixel_example : Props.t :=
  plain_props example_data 100 100 None
    (Some (XAxis.mk None None None None
             (Some (XLabelArray [XAxisLabel.mk (SNumber 5) "five"]))
             (Some (XOffsetValue (PixelOffset.mk 0 3)))
             (Some (PixelYNumber 7)) None))
    (Some (YAxis.mk None None None None
             (Some (YLabelArray [YAxisLabel.mk (SNumber 5) "five"]))
             (Some (YOffsetValue (PixelOffset.mk 2 0)))
             (Some (PixelXNumber 0)) None)).

(** * Properties *)

(** ** Comparisons and intervals *)

Lemma Qltb_lt (a b : Q) : Qltb a b = true <-> a < b.
Proof.
  unfold Qltb. rewrite negb_true_iff. split; intro H.
  - apply Qnot_le_lt. intro Hle. apply Qle_bool_iff in Hle. congruence.
  - destruct (Qle_bool b a) eqn:E; [|reflexivity].
    apply Qle_bool_iff in E. lra.
Qed.

Lemma Qltb_ge (a b : Q) : Qltb a b = false <-> b <= a.
Proof.
  unfold Qltb. rewrite negb_false_iff. apply Qle_bool_iff.
Qed.

Lemma truthy_nonzero (n : Q) : truthy n = true <-> ~ n == 0.
Proof.
  unfold truthy. rewrite negb_true_iff. split; intro H.
  - now apply Qeq_bool_neq.
  - destruct (Qeq_bool n 0) eqn:E; [|reflexivity].
    apply Qeq_bool_eq in E. contradiction.
Qed.

Lemma between_swap (a b v : Q) : between (a, b) v -> between (b, a) v.
Proof. unfold between; simpl; tauto. Qed.

Lemma between_pair_eq (i j : Q * Q) (v w : Q) :
  pair_eq i j -> v == w -> between i v -> between j w.
Proof.
  unfold pair_eq, between. intros [H1 H2] Hv [H | H]; [left | right]; lra.
Qed.

Lemma pair_eq_refl (i : Q * Q) : pair_eq i i.
Proof. split; reflexivity. Qed.

Lemma widens_refl (i : Q * Q) : widens i i.
Proof. unfold widens; split; intros; lra. Qed.

(** ** The executable scale library meets the contract *)

Module AffineScaleFacts.
Import AffineScale.

Lemma normalize_unit (a b v : Q) :
  a <= b -> a <= v <= b -> 0 <= normalize a b v <= 1.
Proof.
  intros Hab Hv. unfold normalize.
  destruct (Qeq_bool (b - a) 0) eqn:E.
  - lra.
  - apply Qeq_bool_neq in E.
    assert (Hpos : 0 < b - a) by lra.
    split.
    + apply Qle_shift_div_l; [exact Hpos | lra].
    + apply Qle_shift_div_r; [exact Hpos | lra].
Qed.

Lemma interpolateNumber_between (r0 r1 t : Q) :
  0 <= t <= 1 -> between (r0, r1) (interpolateNumber r0 r1 t).
Proof.
  intros Ht. unfold between, interpolateNumber; simpl.
  destruct (Qlt_le_dec r1 r0); [right | left]; split; nra.
Qed.

Lemma bimap_between (d r : Q * Q) (v : Q) :
  between d v -> between r (bimap d r v).
Proof.
  destruct d as [d0 d1], r as [r0 r1]. unfold between at 1; simpl.
  intros Hv. destruct (Qltb d1 d0) eqn:E.
  - apply Qltb_lt in E. apply between_swap.
    apply interpolateNumber_between, normalize_unit; lra.
  - apply Qltb_ge in E.
    apply interpolateNumber_between, normalize_unit; lra.
Qed.

Lemma normalize_first (a b v : Q) :
  ~ a == b -> v == a -> normalize a b v == 0.
Proof.
  intros Hab Hv. unfold normalize.
  destruct (Qeq_bool (b - a) 0) eqn:E.
  - apply Qeq_bool_eq in E. exfalso. apply Hab. lra.
  - rewrite Hv. field. intro H. apply Hab. lra.
Qed.

Lemma normalize_last (a b v : Q) :
  ~ a == b -> v == b -> normalize a b v == 1.
Proof.
  intros Hab Hv. unfold normalize.
  destruct (Qeq_bool (b - a) 0) eqn:E.
  - apply Qeq_bool_eq in E. exfalso. apply Hab. lra.
  - rewrite Hv. field. intro H. apply Hab. lra.
Qed.

Lemma bimap_first (d0 d1 r0 r1 v : Q) :
  ~ d0 == d1 -> v == d0 -> bimap (d0, d1) (r0, r1) v == r0.
Proof.
  intros Hd Hv. unfold bimap, interpolateNumber.
  destruct (Qltb d1 d0).
  - rewrite (normalize_last d1 d0 v); [ring | intro H; apply Hd; lra | exact Hv].
  - rewrite (normalize_first d0 d1 v); [ring | exact Hd | exact Hv].
Qed.

Lemma bimap_last (d0 d1 r0 r1 v : Q) :
  ~ d0 == d1 -> v == d1 -> bimap (d0, d1) (r0, r1) v == r1.
Proof.
  intros Hd Hv. unfold bimap, interpolateNumber.
  destruct (Qltb d1 d0).
  - rewrite (normalize_first d1 d0 v); [ring | intro H; apply Hd; lra | exact Hv].
  - rewrite (normalize_last d0 d1 v); [ring | exact Hd | exact Hv].
Qed.

(** A scale whose domain and range are not single points undoes its own
    inverse. *)
Lemma bimap_invert (d r : Q * Q) (pixel : Q) :
  ~ fst d == snd d -> ~ fst r == snd r ->
  bimap d r (bimap r d pixel) == pixel.
Proof.
  destruct d as [d0 d1], r as [r0 r1]; simpl. intros Hd Hr.
  unfold bimap, interpolateNumber, normalize.
  assert (E1 : Qeq_bool (d1 - d0) 0 = false).
  { destruct (Qeq_bool (d1 - d0) 0) eqn:E; [|reflexivity].
    apply Qeq_bool_eq in E. exfalso. apply Hd. lra. }
  assert (E2 : Qeq_bool (d0 - d1) 0 = false).
  { destruct (Qeq_bool (d0 - d1) 0) eqn:E; [|reflexivity].
    apply Qeq_bool_eq in E. exfalso. apply Hd. lra. }
  assert (E3 : Qeq_bool (r1 - r0) 0 = false).
  { destruct (Qeq_bool (r1 - r0) 0) eqn:E; [|reflexivity].
    apply Qeq_bool_eq in E. exfalso. apply Hr. lra. }
  assert (E4 : Qeq_bool (r0 - r1) 0 = false).
  { destruct (Qeq_bool (r0 - r1) 0) eqn:E; [|reflexivity].
    apply Qeq_bool_eq in E. exfalso. apply Hr. lra. }
  assert (N1 : ~ d1 - d0 == 0) by (intro; apply Hd; lra).
  assert (N2 : ~ d0 - d1 == 0) by (intro; apply Hd; lra).
  assert (N3 : ~ r1 - r0 == 0) by (intro; apply Hr; lra).
  assert (N4 : ~ r0 - r1 == 0) by (intro; apply Hr; lra).
  destruct (Qltb d1 d0), (Qltb r1 r0);
    rewrite ?E1, ?E2, ?E3, ?E4; field; auto.
Qed.

Lemma call_invert_linear (s : t) (pixel : Q) :
  kind s = Linear ->
  ~ fst (domain_ s) == snd (domain_ s) ->
  ~ fst (range_ s) == snd (range_ s) ->
  call_ s (invert_ s pixel) == pixel.
Proof.
  intros Hk Hd Hr. unfold call_, invert_. rewrite Hk. simpl.
  now apply bimap_invert.
Qed.

(** A tick increment, when there is one, is not zero. *)
Lemma tickIncrement_nonzero (start stop count step : Q) :
  tickIncrement start stop count = Some step -> ~ step == 0.
Proof.
  unfold tickIncrement.
  destruct (Qle_bool count 0); [discriminate|].
  destruct (Qle_bool ((stop - start) / count) 0); [discriminate|].
  set (power := floor_log10 ((stop - start) / count)).
  set (error := (stop - start) / count / 10 ^ power).
  set (factor := if Qle_bool 50 (error * error) then 10
                 else if Qle_bool 10 (error * error) then 5
                 else if Qle_bool 2 (error * error) then 2 else 1).
  assert (Hf : 0 < factor).
  { unfold factor.
    destruct (Qle_bool 50 (error * error)); [reflexivity|].
    destruct (Qle_bool 10 (error * error)); [reflexivity|].
    destruct (Qle_bool 2 (error * error)); reflexivity. }
  intros H. injection H as <-.
  destruct (0 <=? power)%Z.
  - assert (0 < 10 ^ power) by (apply Qpower_0_lt; reflexivity). nra.
  - assert (Hp : 0 < 10 ^ (- power)) by (apply Qpower_0_lt; reflexivity).
    intro H0.
    assert (Hq : - 10 ^ (- power) / factor * factor == - 10 ^ (- power))
      by (field; lra).
    rewrite H0 in Hq. lra.
Qed.

(** Rounding to an increment moves [start] down and [stop] up. *)
Lemma round_out_outward (step start stop : Q) :
  ~ step == 0 ->
  fst (round_out step start stop) <= start /\
  stop <= snd (round_out step start stop).
Proof.
  intros Hs. unfold round_out, Qfloor_, Qceil_.
  destruct (Qltb 0 step) eqn:E; cbn [fst snd].
  - apply Qltb_lt in E.
    pose proof (Qfloor_le (start / step)) as Hf.
    pose proof (Qle_ceiling (stop / step)) as Hc.
    assert (Ha : start / step * step == start) by (field; exact Hs).
    assert (Hb : stop / step * step == stop) by (field; exact Hs).
    generalize dependent (inject_Z (Qfloor (start / step))). intros f Hf.
    generalize dependent (inject_Z (Qceiling (stop / step))). intros c Hc.
    generalize dependent (start / step). intros u Hu Hf.
    generalize dependent (stop / step). intros w Hw Hc.
    split; nra.
  - apply Qltb_ge in E.
    assert (Hneg : step < 0) by lra.
    pose proof (Qle_ceiling (start * step)) as Hc.
    pose proof (Qfloor_le (stop * step)) as Hf.
    generalize dependent (inject_Z (Qceiling (start * step))). intros c Hc.
    generalize dependent (inject_Z (Qfloor (stop * step))). intros f Hf.
    assert (Ha : c / step * step == c) by (field; exact Hs).
    assert (Hb : f / step * step == f) by (field; exact Hs).
    generalize dependent (c / step). intros u Hu.
    generalize dependent (f / step). intros w Hw.
    split; nra.
Qed.

Lemma nice_range (s : t) (count : option Q) : range_ (nice_ s count) = range_ s.
Proof.
  unfold nice_. destruct (domain_ s) as [d0 d1].
  destruct (tickIncrement _ _ _) as [step|]; [|reflexivity].
  destruct (round_out step _ _) as [start' stop'].
  destruct (tickIncrement _ _ _) as [step'|]; [|reflexivity].
  destruct (round_out step' _ _). reflexivity.
Qed.

Lemma nice_kind (s : t) (count : option Q) : kind (nice_ s count) = kind s.
Proof.
  unfold nice_. destruct (domain_ s) as [d0 d1].
  destruct (tickIncrement _ _ _) as [step|]; [|reflexivity].
  destruct (round_out step _ _) as [start' stop'].
  destruct (tickIncrement _ _ _) as [step'|]; [|reflexivity].
  destruct (round_out step' _ _). reflexivity.
Qed.

Lemma nice_widens (s : t) (count : option Q) :
  widens (domain_ (nice_ s count)) (domain_ s).
Proof.
  unfold nice_. destruct (domain_ s) as [d0 d1] eqn:Ed.
  set (start := if Qltb d1 d0 then d1 else d0).
  set (stop := if Qltb d1 d0 then d0 else d1).
  destruct (tickIncrement start stop _) as [step|] eqn:E1;
    [|rewrite Ed; apply widens_refl].
  pose proof (round_out_outward step start stop
                (tickIncrement_nonzero _ _ _ _ E1)) as [H1 H2].
  destruct (round_out step start stop) as [start' stop'].
  destruct (tickIncrement start' stop' _) as [step'|] eqn:E2;
    [|rewrite Ed; apply widens_refl].
  pose proof (round_out_outward step' start' stop'
                (tickIncrement_nonzero _ _ _ _ E2)) as [H3 H4].
  destruct (round_out step' start' stop') as [lo hi].
  simpl in *. unfold widens. subst start stop.
  destruct (Qltb d1 d0) eqn:E.
  - apply Qltb_lt in E. simpl. split; intros; [lra | split; lra].
  - apply Qltb_ge in E. simpl. split; intros; [split; lra | lra].
Qed.

#[export] Instance contract : ScaleContract AffineScale.library.
Proof.
  constructor; simpl.
  - intros. apply pair_eq_refl.
  - intros. apply pair_eq_refl.
  - intros. apply pair_eq_refl.
  - intros. apply pair_eq_refl.
  - intros. rewrite nice_range. apply pair_eq_refl.
  - apply nice_widens.
  - intros s v H. now apply bimap_between.
  - intros s v. unfold call_. destruct (domain_ s), (range_ s). simpl.
    apply bimap_first.
  - intros s v. unfold call_. destruct (domain_ s), (range_ s). simpl.
    apply bimap_last.
Qed.

End AffineScaleFacts.

(** ** Arrays: [reduce], [min], [max] and indexed [map] *)

Lemma fold_left_min_spec (l : list Scalar) (a : Scalar) :
  let m := fold_left (fun a b => if js_lt a b then a else b) l a in
  In m (a :: l) /\ forall v, In v (a :: l) -> valueOf m <= valueOf v.
Proof.
  revert a. induction l as [|b l IH]; intros a; simpl.
  - split; [now left | intros v [<- | []]; lra].
  - destruct (IH (if js_lt a b then a else b)) as [Hin Hle].
    split.
    + destruct Hin as [Hin | Hin]; [|now right; right].
      rewrite <- Hin. destruct (js_lt a b); [now left | now right; left].
    + assert (Hab : valueOf (if js_lt a b then a else b) <= valueOf a /\
                    valueOf (if js_lt a b then a else b) <= valueOf b).
      { unfold js_lt. destruct (Qltb (valueOf a) (valueOf b)) eqn:E.
        - apply Qltb_lt in E. lra.
        - apply Qltb_ge in E. lra. }
      intros v [<- | [<- | Hv]].
      * specialize (Hle _ (or_introl eq_refl)). lra.
      * specialize (Hle _ (or_introl eq_refl)). lra.
      * apply Hle. now right.
Qed.

Lemma fold_left_max_spec (l : list Scalar) (a : Scalar) :
  let m := fold_left (fun a b => if js_gt a b then a else b) l a in
  In m (a :: l) /\ forall v, In v (a :: l) -> valueOf v <= valueOf m.
Proof.
  revert a. induction l as [|b l IH]; intros a; simpl.
  - split; [now left | intros v [<- | []]; lra].
  - destruct (IH (if js_gt a b then a else b)) as [Hin Hle].
    split.
    + destruct Hin as [Hin | Hin]; [|now right; right].
      rewrite <- Hin. destruct (js_gt a b); [now left | now right; left].
    + assert (Hab : valueOf a <= valueOf (if js_gt a b then a else b) /\
                    valueOf b <= valueOf (if js_gt a b then a else b)).
      { unfold js_gt. destruct (Qltb (valueOf b) (valueOf a)) eqn:E.
        - apply Qltb_lt in E. lra.
        - apply Qltb_ge in E. lra. }
      intros v [<- | [<- | Hv]].
      * specialize (Hle _ (or_introl eq_refl)). lra.
      * specialize (Hle _ (or_introl eq_refl)). lra.
      * apply Hle. now right.
Qed.

Lemma min_empty : min [] = Throw (TypeError "Reduce of empty array with no initial value").
Proof. reflexivity. Qed.

Lemma min_max_nonempty (values : list Scalar) :
  values <> [] ->
  exists lowest highest,
    min values = Ok lowest /\ max values = Ok highest /\
    is_min_max values (lowest, highest).
Proof.
  destruct values as [|a l]; [congruence | intros _].
  destruct (fold_left_min_spec l a) as [Hmin1 Hmin2].
  destruct (fold_left_max_spec l a) as [Hmax1 Hmax2].
  eexists; eexists. split; [reflexivity | split; [reflexivity|]].
  split; [exact Hmin1 | split; [exact Hmax1|]].
  intros v Hv. split; [now apply Hmin2 | now apply Hmax2].
Qed.

Lemma nth_error_mapi_from {A B : Type} (f : A -> nat -> B) (l : list A)
  (start i : nat) :
  nth_error (mapi_from f start l) i =
  option_map (fun a => f a (start + i)%nat) (nth_error l i).
Proof.
  revert start i. induction l as [|a l IH]; intros start [|i]; simpl; trivial.
  - now rewrite Nat.add_0_r.
  - rewrite IH. now rewrite Nat.add_succ_comm.
Qed.

Lemma nth_error_mapi {A B : Type} (f : A -> nat -> B) (l : list A) (i : nat) :
  nth_error (mapi f l) i = option_map (fun a => f a i) (nth_error l i).
Proof. unfold mapi. now rewrite nth_error_mapi_from. Qed.

Lemma In_mapi {A B : Type} (f : A -> nat -> B) (l : list A) (b : B) :
  In b (mapi f l) -> exists a i, nth_error l i = Some a /\ b = f a i.
Proof.
  intros Hin. apply In_nth_error in Hin as [i Hi].
  rewrite nth_error_mapi in Hi.
  destruct (nth_error l i) as [a|] eqn:E; [|discriminate].
  injection Hi as <-. now exists a, i.
Qed.

Lemma map_mapi_from {A B C : Type} (f : A -> nat -> B) (g : B -> C)
  (h : A -> C) (l : list A) (start : nat) :
  (forall a i, g (f a i) = h a) ->
  map g (mapi_from f start l) = map h l.
Proof.
  intros Hgf. revert start.
  induction l as [|a l IH]; intros start; simpl; [reflexivity|].
  now rewrite Hgf, IH.
Qed.

Lemma length_mapi {A B : Type} (f : A -> nat -> B) (l : list A) :
  List.length (mapi f l) = List.length l.
Proof.
  unfold mapi. generalize 0%nat.
  induction l as [|a l IH]; intros n; simpl; [reflexivity|].
  now rewrite IH.
Qed.

(** ** Domains and scales *)

Section DomainFacts.
Context {L : ScaleLibrary}.
Variable props : Props.t.

Lemma defaultDomain_nonempty (key : Datum.t -> Scalar) :
  data props <> [] ->
  exists d, defaultDomain props key = Ok d /\
            is_min_max (map key (data props)) d.
Proof.
  intros Hne. unfold defaultDomain.
  destruct (min_max_nonempty (map key (data props)))
    as (lowest & highest & Hmin & Hmax & Hspec).
  { intro H. apply map_eq_nil in H. contradiction. }
  exists (lowest, highest). rewrite Hmin, Hmax. now split.
Qed.

Lemma defaultDomain_empty (key : Datum.t -> Scalar) :
  data props = [] ->
  defaultDomain props key =
  Throw (TypeError "Reduce of empty array with no initial value").
Proof. intros H. unfold defaultDomain. now rewrite H. Qed.

Lemma _xBeforeNice_built (d : Domain) :
  xDomain props = Ok d ->
  exists s, _xBeforeNice props = Ok s /\
    (s = scaleTime d (chartLeftPixel props, chartRightPixel props) \/
     s = scaleLinear d (chartLeftPixel props, chartRightPixel props)).
Proof.
  intros H. unfold _xBeforeNice. rewrite H. simpl.
  destruct (data props) as [|d0 rest]; simpl;
    [|destruct (instanceofDate (Datum.x d0))];
    eexists; (split; [reflexivity|]); auto.
Qed.

Lemma _yBeforeNice_built (d : Domain) :
  yDomain props = Ok d ->
  exists s, _yBeforeNice props = Ok s /\
    (s = scaleTime d (chartBottomPixel props, chartTopPixel props) \/
     s = scaleLinear d (chartBottomPixel props, chartTopPixel props)).
Proof.
  intros H. unfold _yBeforeNice. rewrite H. simpl.
  destruct (data props) as [|d0 rest]; simpl;
    [|destruct (instanceofDate (Datum.y d0))];
    eexists; (split; [reflexivity|]); auto.
Qed.

Context {C : ScaleContract L}.

Lemma built_domain_range (s : Scale) (d : Domain) (r : Q * Q) :
  s = scaleTime d r \/ s = scaleLinear d r ->
  pair_eq (domain s) (domain_values d) /\ pair_eq (range s) r.
Proof.
  intros [-> | ->]; split.
  - apply domain_scaleTime.
  - apply range_scaleTime.
  - apply domain_scaleLinear.
  - apply range_scaleLinear.
Qed.

Lemma maybeWithNice_range (s : Scale) (n : option NiceProp) :
  pair_eq (range (maybeWithNice s n)) (range s).
Proof.
  destruct n as [[|count]|]; simpl.
  - apply range_nice.
  - destruct (truthy count); [apply range_nice | apply pair_eq_refl].
  - apply pair_eq_refl.
Qed.

Lemma maybeWithNice_widens (s : Scale) (n : option NiceProp) :
  widens (domain (maybeWithNice s n)) (domain s).
Proof.
  destruct n as [[|count]|]; simpl.
  - apply domain_nice.
  - destruct (truthy count); [apply domain_nice | apply widens_refl].
  - apply widens_refl.
Qed.

End DomainFacts.

(** ** Claims about domains and scales *)

(** C4: when [xAxis.visibleX] is given, the x domain is exactly that pair,
    whatever the data (the min/max reduction is not run), and the scale is
    built over it; when it is absent the domain is the least and greatest
    x value of the data.  The same holds for [yAxis.visibleY] and the y
    values.  The scale so built is the final scale when nicing is off. *)
Theorem visible_range_overrides_inferred_domain
  {L : ScaleLibrary} {C : ScaleContract L} (props : Props.t) :
  (forall visibleX,
     chain (xAxis props) XAxis.visibleX = Some visibleX ->
     xDomain props = Ok visibleX /\
     exists s, _xBeforeNice props = Ok s /\
               pair_eq (domain s) (domain_values visibleX) /\
               (chain (xAxis props) XAxis.nice = None -> xScale props = Ok s)) /\
  (chain (xAxis props) XAxis.visibleX = None -> data props <> [] ->
   exists d, xDomain props = Ok d /\
             is_min_max (map Datum.x (data props)) d /\
             exists s, _xBeforeNice props = Ok s /\
                       pair_eq (domain s) (domain_values d) /\
                       (chain (xAxis props) XAxis.nice = None ->
                        xScale props = Ok s)) /\
  (forall visibleY,
     chain (yAxis props) YAxis.visibleY = Some visibleY ->
     yDomain props = Ok visibleY /\
     exists s, _yBeforeNice props = Ok s /\
               pair_eq (domain s) (domain_values visibleY) /\
               (chain (yAxis props) YAxis.nice = None -> yScale props = Ok s)) /\
  (chain (yAxis props) YAxis.visibleY = None -> data props <> [] ->
   exists d, yDomain props = Ok d /\
             is_min_max (map Datum.y (data props)) d /\
             exists s, _yBeforeNice props = Ok s /\
                       pair_eq (domain s) (domain_values d) /\
                       (chain (yAxis props) YAxis.nice = None ->
                        yScale props = Ok s)).
Proof.
  assert (HX : forall d, xDomain props = Ok d ->
             exists s, _xBeforeNice props = Ok s /\
                       pair_eq (domain s) (domain_values d) /\
                       (chain (xAxis props) XAxis.nice = None ->
                        xScale props = Ok s)).
  { intros d Hd. destruct (_xBeforeNice_built props _ Hd) as (s & Hs & Hb).
    exists s. split; [exact Hs | split].
    - now apply built_domain_range in Hb.
    - intros Hn. unfold xScale. now rewrite Hs, Hn. }
  assert (HY : forall d, yDomain props = Ok d ->
             exists s, _yBeforeNice props = Ok s /\
                       pair_eq (domain s) (domain_values d) /\
                       (chain (yAxis props) YAxis.nice = None ->
                        yScale props = Ok s)).
  { intros d Hd. destruct (_yBeforeNice_built props _ Hd) as (s & Hs & Hb).
    exists s. split; [exact Hs | split].
    - now apply built_domain_range in Hb.
    - intros Hn. unfold yScale. now rewrite Hs, Hn. }
  split; [|split; [|split]].
  - intros visibleX Hv.
    assert (Hd : xDomain props = Ok visibleX) by (unfold xDomain; now rewrite Hv).
    split; [exact Hd | now apply HX].
  - intros Hnone Hne.
    destruct (defaultDomain_nonempty props Datum.x Hne) as (d & Hd & Hmm).
    assert (Hx : xDomain props = Ok d) by (unfold xDomain; now rewrite Hnone).
    exists d. split; [exact Hx | split; [exact Hmm | now apply HX]].
  - intros visibleY Hv.
    assert (Hd : yDomain props = Ok visibleY) by (unfold yDomain; now rewrite Hv).
    split; [exact Hd | now apply HY].
  - intros Hnone Hne.
    destruct (defaultDomain_nonempty props Datum.y Hne) as (d & Hd & Hmm).
    assert (Hy : yDomain props = Ok d) by (unfold yDomain; now rewrite Hnone).
    exists d. split; [exact Hy | split; [exact Hmm | now apply HY]].
Qed.

(** The visible ranges [2, 8] and [1, 9] are the domains even over an
    empty data array; without them the example data give [0, 10]. *)
Lemma visible_range_overrides_inferred_domain_witness :
  (xDomain (visible_example []) = Ok (SNumber 2, SNumber 8) /\
   yDomain (visible_example []) = Ok (SNumber 1, SNumber 9)) /\
  (exists d, xDomain padded_example = Ok d /\
             is_min_max (map Datum.x (data padded_example)) d).
Proof.
  pose proof (@visible_range_overrides_inferred_domain
                AffineScale.library AffineScaleFacts.contract
                (visible_example [])) as (Hx & _ & Hy & _).
  pose proof (@visible_range_overrides_inferred_domain
                AffineScale.library AffineScaleFacts.contract
                padded_example) as (_ & Hd & _).
  split; [split|].
  - exact (proj1 (Hx _ eq_refl)).
  - exact (proj1 (Hy _ eq_refl)).
  - destruct (Hd eq_refl ltac:(discriminate)) as (d & H1 & H2 & _).
    exists d. split; assumption.
Defined.

(** C6: the kind of each scale is chosen by the first datum alone.  When
    [data[0]] exists and its x value is a [Date] the x scale is built by
    [scaleTime], otherwise (a number there, or no first datum) by
    [scaleLinear], over the same domain and range; the y scale follows
    the first datum's y value in the same way.  The data after the first
    take no part in the choice. *)
Theorem scale_kind_follows_first_datum {L : ScaleLibrary} (props : Props.t) :
  (forall first rest xDom,
     data props = first :: rest -> xDomain props = Ok xDom ->
     _xBeforeNice props =
       Ok ((if instanceofDate (Datum.x first) then scaleTime else scaleLinear)
             xDom (chartLeftPixel props, chartRightPixel props)) /\
     xScale props =
       Ok (maybeWithNice
             ((if instanceofDate (Datum.x first) then scaleTime else scaleLinear)
                xDom (chartLeftPixel props, chartRightPixel props))
             (chain (xAxis props) XAxis.nice))) /\
  (forall first rest yDom,
     data props = first :: rest -> yDomain props = Ok yDom ->
     _yBeforeNice props =
       Ok ((if instanceofDate (Datum.y first) then scaleTime else scaleLinear)
             yDom (chartBottomPixel props, chartTopPixel props)) /\
     yScale props =
       Ok (maybeWithNice
             ((if instanceofDate (Datum.y first) then scaleTime else scaleLinear)
                yDom (chartBottomPixel props, chartTopPixel props))
             (chain (yAxis props) YAxis.nice))) /\
  (forall xDom,
     data props = [] -> xDomain props = Ok xDom ->
     _xBeforeNice props =
       Ok (scaleLinear xDom (chartLeftPixel props, chartRightPixel props))) /\
  (forall yDom,
     data props = [] -> yDomain props = Ok yDom ->
     _yBeforeNice props =
       Ok (scaleLinear yDom (chartBottomPixel props, chartTopPixel props))).
Proof.
  split; [|split; [|split]].
  - intros first rest xDom Hdata Hdom.
    unfold xScale, _xBeforeNice. rewrite Hdom, Hdata. simpl.
    now destruct (instanceofDate (Datum.x first)).
  - intros first rest yDom Hdata Hdom.
    unfold yScale, _yBeforeNice. rewrite Hdom, Hdata. simpl.
    now destruct (instanceofDate (Datum.y first)).
  - intros xDom Hdata Hdom. unfold _xBeforeNice. now rewrite Hdom, Hdata.
  - intros yDom Hdata Hdom. unfold _yBeforeNice. now rewrite Hdom, Hdata.
Qed.

(** The first datum has a [Date] for x and a number for y; the second has
    them the other way round: the x scale is a time scale, the y scale a
    linear one. *)
Lemma scale_kind_follows_first_datum_witness :
  (exists s, _xBeforeNice (L := AffineScale.library) dated_example = Ok s /\
             AffineScale.kind s = AffineScale.Time) /\
  (exists s, _yBeforeNice (L := AffineScale.library) dated_example = Ok s /\
             AffineScale.kind s = AffineScale.Linear).
Proof.
  pose proof (@scale_kind_follows_first_datum AffineScale.library dated_example)
    as (Hx & Hy & _).
  split.
  - destruct (Hx _ _ (SDate 1000, SNumber 2000) eq_refl eq_refl) as [H _].
    eexists. split; [exact H | reflexivity].
  - destruct (Hy _ _ (SNumber 1, SDate 5) eq_refl eq_refl) as [H _].
    eexists. split; [exact H | reflexivity].
Defined.

(** C2: for data [(0,0), (10,10)], width and height 100, the four paddings
    0, no nicing and no visible range, the x scale maps 0 to pixel 0 and 10
    to pixel 100, and the y scale maps 0 to pixel 100 and 10 to pixel 0. *)
Theorem example_scales_map_ends
  {L : ScaleLibrary} {C : ScaleContract L} (props : Props.t) :
  data props = example_data ->
  Props.width props == 100 -> Props.height props == 100 ->
  Props.paddingTop props = Some 0 -> Props.paddingRight props = Some 0 ->
  Props.paddingBottom props = Some 0 -> Props.paddingLeft props = Some 0 ->
  chain (xAxis props) XAxis.nice = None ->
  chain (xAxis props) XAxis.visibleX = None ->
  chain (yAxis props) YAxis.nice = None ->
  chain (yAxis props) YAxis.visibleY = None ->
  exists out,
    LineGraph props = Ok out /\
    call (scaleInfoX out) (SNumber 0) == 0 /\
    call (scaleInfoX out) (SNumber 10) == 100 /\
    call (scaleInfoY out) (SNumber 0) == 100 /\
    call (scaleInfoY out) (SNumber 10) == 0.
Proof.
  intros Hdata Hw Hh Hpt Hpr Hpb Hpl Hxn Hxv Hyn Hyv.
  assert (Hxd : xDomain props = Ok (SNumber 0, SNumber 10)).
  { unfold xDomain, defaultDomain. now rewrite Hxv, Hdata. }
  assert (Hyd : yDomain props = Ok (SNumber 0, SNumber 10)).
  { unfold yDomain, defaultDomain. now rewrite Hyv, Hdata. }
  assert (Hxs : xScale props =
                Ok (scaleLinear (SNumber 0, SNumber 10)
                      (chartLeftPixel props, chartRightPixel props))).
  { unfold xScale, _xBeforeNice. now rewrite Hxd, Hxn, Hdata. }
  assert (Hys : yScale props =
                Ok (scaleLinear (SNumber 0, SNumber 10)
                      (chartBottomPixel props, chartTopPixel props))).
  { unfold yScale, _yBeforeNice. now rewrite Hyd, Hyn, Hdata. }
  unfold LineGraph. rewrite Hxs, Hys. simpl.
  eexists. split; [reflexivity|]. simpl.
  assert (Hl : chartLeftPixel props == 0)
    by (unfold chartLeftPixel, paddingLeft; rewrite Hpl; reflexivity).
  assert (Hr : chartRightPixel props == 100)
    by (unfold chartRightPixel, paddingRight, width; rewrite Hpr, Hw; reflexivity).
  assert (Ht : chartTopPixel props == 0)
    by (unfold chartTopPixel, paddingTop; rewrite Hpt; reflexivity).
  assert (Hb : chartBottomPixel props == 100)
    by (unfold chartBottomPixel, paddingBottom, height; rewrite Hpb, Hh; reflexivity).
  set (sx := scaleLinear (SNumber 0, SNumber 10)
               (chartLeftPixel props, chartRightPixel props)).
  set (sy := scaleLinear (SNumber 0, SNumber 10)
               (chartBottomPixel props, chartTopPixel props)).
  destruct (domain_scaleLinear (SNumber 0, SNumber 10)
              (chartLeftPixel props, chartRightPixel props)) as [Dx0 Dx1].
  destruct (range_scaleLinear (SNumber 0, SNumber 10)
              (chartLeftPixel props, chartRightPixel props)) as [Rx0 Rx1].
  destruct (domain_scaleLinear (SNumber 0, SNumber 10)
              (chartBottomPixel props, chartTopPixel props)) as [Dy0 Dy1].
  destruct (range_scaleLinear (SNumber 0, SNumber 10)
              (chartBottomPixel props, chartTopPixel props)) as [Ry0 Ry1].
  fold sx in Dx0, Dx1, Rx0, Rx1. fold sy in Dy0, Dy1, Ry0, Ry1.
  simpl in Dx0, Dx1, Rx0, Rx1, Dy0, Dy1, Ry0, Ry1.
  assert (Nx : ~ fst (domain sx) == snd (domain sx)) by (rewrite Dx0, Dx1; q_eval).
  assert (Ny : ~ fst (domain sy) == snd (domain sy)) by (rewrite Dy0, Dy1; q_eval).
  repeat split.
  - rewrite (call_first sx (SNumber 0) Nx); [lra | now rewrite Dx0].
  - rewrite (call_last sx (SNumber 10) Nx); [lra | now rewrite Dx1].
  - rewrite (call_first sy (SNumber 0) Ny); [lra | now rewrite Dy0].
  - rewrite (call_last sy (SNumber 10) Ny); [lra | now rewrite Dy1].
Qed.

Lemma example_scales_map_ends_witness :
  exists out,
    LineGraph (L := AffineScale.library) spec_example = Ok out /\
    AffineScale.call_ (scaleInfoX out) (SNumber 0) == 0 /\
    AffineScale.call_ (scaleInfoX out) (SNumber 10) == 100 /\
    AffineScale.call_ (scaleInfoY out) (SNumber 0) == 100 /\
    AffineScale.call_ (scaleInfoY out) (SNumber 10) == 0.
Proof.
  apply (@example_scales_map_ends AffineScale.library AffineScaleFacts.contract
           spec_example); reflexivity.
Defined.

(** ** The rendered output *)

Lemma pair_eq_trans (a b c : Q * Q) : pair_eq a b -> pair_eq b c -> pair_eq a c.
Proof. unfold pair_eq. intros [H1 H2] [H3 H4]. split; lra. Qed.

Section RenderFacts.
Context {L : ScaleLibrary}.
Variable props : Props.t.

Lemma LineGraph_inv (out : Rendered) :
  LineGraph props = Ok out ->
  exists xs ys,
    xScale props = Ok xs /\ yScale props = Ok ys /\
    scaleInfoX out = xs /\ scaleInfoY out = ys /\
    renderedDots out = dots props xs ys /\
    renderedXGridLines out = XGridLines props xs ys /\
    renderedYGridLines out = YGridLines props xs ys /\
    renderedXTickLabels out = XTickLabels props xs ys /\
    renderedYTickLabels out = YTickLabels props xs ys.
Proof.
  unfold LineGraph.
  destruct (xScale props) as [xs|e]; simpl; [|discriminate].
  destruct (yScale props) as [ys|e]; simpl; [|discriminate].
  intros [= <-]. exists xs, ys. simpl. repeat split.
Qed.

Lemma xScale_of_domain (d : Domain) :
  xDomain props = Ok d -> exists xs, xScale props = Ok xs.
Proof.
  intros H. destruct (_xBeforeNice_built props d H) as (s & Hs & _).
  unfold xScale. rewrite Hs. simpl. eauto.
Qed.

Lemma yScale_of_domain (d : Domain) :
  yDomain props = Ok d -> exists ys, yScale props = Ok ys.
Proof.
  intros H. destruct (_yBeforeNice_built props d H) as (s & Hs & _).
  unfold yScale. rewrite Hs. simpl. eauto.
Qed.

Lemma LineGraph_of_scales (xs ys : Scale) :
  xScale props = Ok xs -> yScale props = Ok ys ->
  exists out, LineGraph props = Ok out /\
              scaleInfoX out = xs /\ scaleInfoY out = ys.
Proof.
  intros Hx Hy. unfold LineGraph. rewrite Hx, Hy. simpl.
  eexists. split; [reflexivity | split; reflexivity].
Qed.

Context {C : ScaleContract L}.

Lemma xScale_range (xs : Scale) :
  xScale props = Ok xs ->
  pair_eq (range xs) (chartLeftPixel props, chartRightPixel props).
Proof.
  unfold xScale.
  destruct (xDomain props) as [d|e] eqn:Ed.
  - destruct (_xBeforeNice_built props d Ed) as (s & Hs & Hb).
    rewrite Hs. simpl. intros [= <-].
    apply built_domain_range in Hb as [_ Hr].
    eapply pair_eq_trans; [apply maybeWithNice_range | exact Hr].
  - unfold _xBeforeNice. rewrite Ed. discriminate.
Qed.

Lemma yScale_range (ys : Scale) :
  yScale props = Ok ys ->
  pair_eq (range ys) (chartBottomPixel props, chartTopPixel props).
Proof.
  unfold yScale.
  destruct (yDomain props) as [d|e] eqn:Ed.
  - destruct (_yBeforeNice_built props d Ed) as (s & Hs & Hb).
    rewrite Hs. simpl. intros [= <-].
    apply built_domain_range in Hb as [_ Hr].
    eapply pair_eq_trans; [apply maybeWithNice_range | exact Hr].
  - unfold _yBeforeNice. rewrite Ed. discriminate.
Qed.

(** Without a visible range every datum lies within the domain of the
    scale, niced or not. *)
Lemma inferred_x_domain_contains_data (xs : Scale) (d : Datum.t) :
  chain (xAxis props) XAxis.visibleX = None ->
  xScale props = Ok xs -> In d (data props) ->
  between (domain xs) (valueOf (Datum.x d)).
Proof.
  intros Hv Hxs Hin.
  assert (Hne : data props <> []) by (intro E; rewrite E in Hin; contradiction).
  destruct (defaultDomain_nonempty props Datum.x Hne) as (dom & Hd & _ & _ & Hmm).
  assert (Hx : xDomain props = Ok dom) by (unfold xDomain; now rewrite Hv).
  destruct (_xBeforeNice_built props dom Hx) as (s & Hs & Hb).
  apply built_domain_range in Hb as [[D0 D1] _].
  unfold xScale in Hxs. rewrite Hs in Hxs. injection Hxs as <-.
  pose proof (maybeWithNice_widens s (chain (xAxis props) XAxis.nice)) as [Hw _].
  specialize (Hmm (Datum.x d) (in_map Datum.x _ _ Hin)).
  simpl in D0, D1. left. lra.
Qed.

Lemma inferred_y_domain_contains_data (ys : Scale) (d : Datum.t) :
  chain (yAxis props) YAxis.visibleY = None ->
  yScale props = Ok ys -> In d (data props) ->
  between (domain ys) (valueOf (Datum.y d)).
Proof.
  intros Hv Hys Hin.
  assert (Hne : data props <> []) by (intro E; rewrite E in Hin; contradiction).
  destruct (defaultDomain_nonempty props Datum.y Hne) as (dom & Hd & _ & _ & Hmm).
  assert (Hy : yDomain props = Ok dom) by (unfold yDomain; now rewrite Hv).
  destruct (_yBeforeNice_built props dom Hy) as (s & Hs & Hb).
  apply built_domain_range in Hb as [[D0 D1] _].
  unfold yScale in Hys. rewrite Hs in Hys. injection Hys as <-.
  pose proof (maybeWithNice_widens s (chain (yAxis props) YAxis.nice)) as [Hw _].
  specialize (Hmm (Datum.y d) (in_map Datum.y _ _ Hin)).
  simpl in D0, D1. left. lra.
Qed.

End RenderFacts.

(** C1, as amended: the chart rectangle must not be inverted.  For a datum
    of the data array whose x and y values lie within the domains of the
    two scales (visible range or inferred min/max, after nicing), and a
    chart rectangle with [paddingLeft <= width - paddingRight] and
    [paddingTop <= height - paddingBottom], the pixel position
    [(xScale(d.x), yScale(d.y))] lies inside the rectangle; it is the
    [cx], [cy] of the datum's dot whenever the component draws the dot
    itself. *)
Theorem dot_pixels_inside_chart
  {L : ScaleLibrary} {C : ScaleContract L}
  (props : Props.t) (out : Rendered) (i : nat) (d : Datum.t) :
  LineGraph props = Ok out ->
  nth_error (data props) i = Some d ->
  paddingLeft props <= width props - paddingRight props ->
  paddingTop props <= height props - paddingBottom props ->
  between (domain (scaleInfoX out)) (valueOf (Datum.x d)) ->
  between (domain (scaleInfoY out)) (valueOf (Datum.y d)) ->
  (paddingLeft props <= call (scaleInfoX out) (Datum.x d)
                     <= width props - paddingRight props /\
   paddingTop props <= call (scaleInfoY out) (Datum.y d)
                    <= height props - paddingBottom props) /\
  (forall c, nth_error (renderedDots out) i = Some (inl c) ->
     CircleProps.cx c = Some (call (scaleInfoX out) (Datum.x d)) /\
     CircleProps.cy c = Some (call (scaleInfoY out) (Datum.y d))).
Proof.
  intros Hout Hd Hw Hh Hx Hy.
  destruct (LineGraph_inv props out Hout)
    as (xs & ys & Hxs & Hys & Ex & Ey & Hdots & _).
  rewrite Ex, Ey in *.
  split.
  - pose proof (xScale_range props xs Hxs) as [Rx0 Rx1].
    pose proof (yScale_range props ys Hys) as [Ry0 Ry1].
    pose proof (call_between xs (Datum.x d) Hx) as Bx.
    pose proof (call_between ys (Datum.y d) Hy) as By.
    unfold between in Bx, By. simpl in Rx0, Rx1, Ry0, Ry1.
    unfold chartLeftPixel, chartRightPixel in Rx0, Rx1.
    unfold chartBottomPixel, chartTopPixel in Ry0, Ry1.
    split; split; lra.
  - intros c Hc. rewrite Hdots in Hc. unfold dots, dotData in Hc.
    rewrite nth_error_mapi in Hc. fold (data props) in Hc.
    rewrite Hd in Hc. simpl in Hc.
    destruct (dotProps props) as [[cp | f]|].
    + injection Hc as <-. now split.
    + destruct (f d _ _ i) as [cp | el]; [|discriminate].
      injection Hc as <-. now split.
    + injection Hc as <-. now split.
Qed.

(** With the default padding on a 100 by 100 chart, the datum (10, 10) is
    drawn at pixel (90, 10), inside [20, 90] by [10, 80]. *)
Lemma dot_pixels_inside_chart_witness :
  exists out c,
    LineGraph (L := AffineScale.library) padded_example = Ok out /\
    nth_error (renderedDots out) 1 = Some (inl c) /\
    CircleProps.cx c = Some (call (scaleInfoX out) (SNumber 10)) /\
    20 <= call (scaleInfoX out) (SNumber 10) <= 100 - 10 /\
    10 <= call (scaleInfoY out) (SNumber 10) <= 100 - 20.
Proof.
  eexists. eexists.
  split; [reflexivity|]. split; [reflexivity|].
  assert (H := @dot_pixels_inside_chart
                 AffineScale.library AffineScaleFacts.contract padded_example
                 _ 1%nat (Datum.mk (SNumber 10) (SNumber 10)) eq_refl eq_refl).
  destruct H as [[Hx Hy] Hc].
  - vm_compute. discriminate.
  - vm_compute. discriminate.
  - left. vm_compute. split; discriminate.
  - left. vm_compute. split; discriminate.
  - split; [exact (proj1 (Hc _ eq_refl))|]. split; [exact Hx | exact Hy].
Defined.

(** C1 as stated fails when the padding exceeds the size: with width 10
    and the default padding (20 left, 10 right) the datum (0, 0) lies in
    both domains and is drawn at pixel x = 20, to the right of
    [width - paddingRight = 0]. *)
Lemma dot_pixels_inside_chart_counterexample :
  exists out d,
    LineGraph (L := AffineScale.library) narrow_example = Ok out /\
    nth_error (data narrow_example) 0 = Some d /\
    between (domain (scaleInfoX out)) (valueOf (Datum.x d)) /\
    between (domain (scaleInfoY out)) (valueOf (Datum.y d)) /\
    ~ (paddingLeft narrow_example <= call (scaleInfoX out) (Datum.x d)
                                  <= width narrow_example - paddingRight narrow_example).
Proof.
  eexists. eexists.
  split; [reflexivity|]. split; [reflexivity|].
  split; [left; vm_compute; split; discriminate|].
  split; [left; vm_compute; split; discriminate|].
  intros [_ H]. vm_compute in H. apply H. reflexivity.
Qed.

(** ** Ticks, labels and gridlines *)

Section TickFacts.
Context {L : ScaleLibrary}.
Variable props : Props.t.
Variables xs ys : Scale.

(** Every x-axis tick is [xLabelToAxisTick] of a label (one from the
    props, or the formatted tick value) and of that label's offset. *)
Lemma xAxisTicks_nth (i : nat) (tick : AxisTick.t) :
  nth_error (xAxisTicks props xs ys) i = Some tick ->
  exists label,
    tick = xLabelToAxisTick props xs ys label
             (xLabelToPixelOffset label i
                (chain (xAxis props) XAxis.labelPixelOffset)).
Proof.
  unfold xAxisTicks, toXAxisTicks. rewrite nth_error_mapi.
  destruct (nth_error (xTicks props xs) i) as [[v | label]|]; simpl;
    [| |discriminate]; intros [= <-].
  - now exists (XAxisLabel.mk v (xFormatFunction props xs v)).
  - now exists label.
Qed.

Lemma yAxisTicks_nth (i : nat) (tick : AxisTick.t) :
  nth_error (yAxisTicks props xs ys) i = Some tick ->
  exists label,
    tick = yLabelToAxisTick props xs ys label
             (yLabelToPixelOffset label i
                (chain (yAxis props) YAxis.labelPixelOffset)).
Proof.
  unfold yAxisTicks, toYAxisTicks. rewrite nth_error_mapi.
  destruct (nth_error (yTicks props ys) i) as [[v | label]|]; simpl;
    [| |discriminate]; intros [= <-].
  - now exists (YAxisLabel.mk v (yFormatFunction props ys v)).
  - now exists label.
Qed.

Lemma xAxisTicks_In (tick : AxisTick.t) :
  In tick (xAxisTicks props xs ys) ->
  exists label offset, tick = xLabelToAxisTick props xs ys label offset.
Proof.
  intros H. apply In_nth_error in H as [i Hi].
  apply xAxisTicks_nth in Hi as [label ->]. eauto.
Qed.

Lemma yAxisTicks_In (tick : AxisTick.t) :
  In tick (yAxisTicks props xs ys) ->
  exists label offset, tick = yLabelToAxisTick props xs ys label offset.
Proof.
  intros H. apply In_nth_error in H as [i Hi].
  apply yAxisTicks_nth in Hi as [label ->]. eauto.
Qed.

Lemma map_map_id {A B : Type} (f : A -> B) (g : B -> A) (l : list A) :
  (forall a, g (f a) = a) -> map g (map f l) = l.
Proof.
  intros Hgf. rewrite map_map. rewrite <- (map_id l) at 2.
  apply map_ext. exact Hgf.
Qed.

(** Labels pass through [toXAxisTicks] with their value and text. *)
Lemma toXAxisTicks_labels (labels : list XAxisLabel.t) :
  map (fun tick => XAxisLabel.mk (AxisTick.x tick) (AxisTick.text tick))
      (toXAxisTicks props xs ys (map XTickLabel labels)) = labels.
Proof.
  unfold toXAxisTicks, mapi.
  rewrite (map_mapi_from _ _
             (fun t => match t with
                       | XTickLabel l => l
                       | XTickValue v => XAxisLabel.mk v (xFormatFunction props xs v)
                       end)).
  - now apply map_map_id.
  - intros [v | [lx lt]] j; reflexivity.
Qed.

Lemma toXAxisTicks_values (values : list Scalar) :
  map AxisTick.x (toXAxisTicks props xs ys (map XTickValue values)) = values.
Proof.
  unfold toXAxisTicks, mapi.
  rewrite (map_mapi_from _ _
             (fun t => match t with
                       | XTickLabel l => XAxisLabel.x l
                       | XTickValue v => v
                       end)).
  - now apply map_map_id.
  - intros [v | l] j; reflexivity.
Qed.

Lemma toYAxisTicks_labels (labels : list YAxisLabel.t) :
  map (fun tick => YAxisLabel.mk (AxisTick.y tick) (AxisTick.text tick))
      (toYAxisTicks props xs ys (map YTickLabel labels)) = labels.
Proof.
  unfold toYAxisTicks, mapi.
  rewrite (map_mapi_from _ _
             (fun t => match t with
                       | YTickLabel l => l
                       | YTickValue v => YAxisLabel.mk v (yFormatFunction props ys v)
                       end)).
  - now apply map_map_id.
  - intros [v | [ly lt]] j; reflexivity.
Qed.

Lemma toYAxisTicks_values (values : list Scalar) :
  map AxisTick.y (toYAxisTicks props xs ys (map YTickValue values)) = values.
Proof.
  unfold toYAxisTicks, mapi.
  rewrite (map_mapi_from _ _
             (fun t => match t with
                       | YTickLabel l => YAxisLabel.y l
                       | YTickValue v => v
                       end)).
  - now apply map_map_id.
  - intros [v | l] j; reflexivity.
Qed.

End TickFacts.


(** C3, as amended: the gridline meets the axis at the tick's own pixel
    coordinate, and the label is drawn at that coordinate plus the tick's
    pixel offset.  For the [i]-th x-axis tick both gridline endpoints have
    [pixelX] equal to the tick's [pixelX], and the label's x is that
    [pixelX] plus [offset.horizontal], where [offset] is the zero offset
    if [labelPixelOffset] is absent, the prop itself if it is a static
    offset, and what the prop returns for the tick's label and index if it
    is a function; so gridline and label coincide when the horizontal
    offset is 0.  For a y-axis tick the same holds of [pixelY] and
    [offset.vertical]. *)
Theorem gridline_meets_tick_position
  {L : ScaleLibrary} (props : Props.t) (xs ys : Scale)
  (i : nat) (tick : AxisTick.t) :
  (nth_error (xAxisTicks props xs ys) i = Some tick ->
   PointData.pixelX (GridLine.p1 (AxisTick.gridLine tick)) = AxisTick.pixelX tick /\
   PointData.pixelX (GridLine.p2 (AxisTick.gridLine tick)) = AxisTick.pixelX tick /\
   exists offset,
     TextProps.x (AxisTick.textProps tick) =
       Some (AxisTick.pixelX tick + PixelOffset.horizontal offset) /\
     (chain (xAxis props) XAxis.labelPixelOffset = None ->
      offset = DEFAULT_OFFSET) /\
     (forall o, chain (xAxis props) XAxis.labelPixelOffset = Some (XOffsetValue o) ->
                offset = o) /\
     (forall f, chain (xAxis props) XAxis.labelPixelOffset = Some (XOffsetFunction f) ->
                offset = f (XAxisLabel.mk (AxisTick.x tick) (AxisTick.text tick)) i)) /\
  (nth_error (yAxisTicks props xs ys) i = Some tick ->
   PointData.pixelY (GridLine.p1 (AxisTick.gridLine tick)) = AxisTick.pixelY tick /\
   PointData.pixelY (GridLine.p2 (AxisTick.gridLine tick)) = AxisTick.pixelY tick /\
   exists offset,
     TextProps.y (AxisTick.textProps tick) =
       Some (AxisTick.pixelY tick + PixelOffset.vertical offset) /\
     (chain (yAxis props) YAxis.labelPixelOffset = None ->
      offset = DEFAULT_OFFSET) /\
     (forall o, chain (yAxis props) YAxis.labelPixelOffset = Some (YOffsetValue o) ->
                offset = o) /\
     (forall f, chain (yAxis props) YAxis.labelPixelOffset = Some (YOffsetFunction f) ->
                offset = f (YAxisLabel.mk (AxisTick.y tick) (AxisTick.text tick)) i)).
Proof.
  split; intros Hi.
  - apply xAxisTicks_nth in Hi as [label ->]. simpl.
    split; [reflexivity | split; [reflexivity|]].
    exists (xLabelToPixelOffset label i (chain (xAxis props) XAxis.labelPixelOffset)).
    split; [reflexivity | split; [|split]].
    + intros ->. reflexivity.
    + intros o ->. reflexivity.
    + intros f ->. destruct label. reflexivity.
  - apply yAxisTicks_nth in Hi as [label ->]. simpl.
    split; [reflexivity | split; [reflexivity|]].
    exists (yLabelToPixelOffset label i (chain (yAxis props) YAxis.labelPixelOffset)).
    split; [reflexivity | split; [|split]].
    + intros ->. reflexivity.
    + intros o ->. reflexivity.
    + intros f ->. destruct label. reflexivity.
Qed.

(** The label "five" at x = 5 has its gridline at pixel 55 and, with the
    static offset (7, 3), its text at 55 + 7; the label at y = 5 has its
    gridline at pixel 45 and, with the offset function returning
    (2, index + 9), its text at 45 + 9. *)
Lemma gridline_meets_tick_position_witness :
  exists xs ys xtick ytick,
    xScale (L := AffineScale.library) offset_example = Ok xs /\
    yScale (L := AffineScale.library) offset_example = Ok ys /\
    nth_error (xAxisTicks offset_example xs ys) 0 = Some xtick /\
    nth_error (yAxisTicks offset_example xs ys) 0 = Some ytick /\
    PointData.pixelX (GridLine.p1 (AxisTick.gridLine xtick)) = AxisTick.pixelX xtick /\
    TextProps.x (AxisTick.textProps xtick) = Some (AxisTick.pixelX xtick + 7) /\
    TextProps.y (AxisTick.textProps ytick) =
      Some (AxisTick.pixelY ytick + (inject_Z (Z.of_nat 0) + 9)).
Proof.
  do 4 eexists.
  split; [reflexivity|]. split; [reflexivity|].
  split; [reflexivity|]. split; [reflexivity|].
  lazymatch goal with
  | |- PointData.pixelX (GridLine.p1 (AxisTick.gridLine ?xtick)) = _ /\ _ /\
       TextProps.y (AxisTick.textProps ?ytick) = _ =>
      destruct (@gridline_meets_tick_position AffineScale.library offset_example
                  (AffineScale.scaleLinear_ (SNumber 0, SNumber 10) (20, 100 - 10))
                  (AffineScale.scaleLinear_ (SNumber 0, SNumber 10) (100 - 20, 10))
                  0%nat xtick) as [Hx _];
      destruct (@gridline_meets_tick_position AffineScale.library offset_example
                  (AffineScale.scaleLinear_ (SNumber 0, SNumber 10) (20, 100 - 10))
                  (AffineScale.scaleLinear_ (SNumber 0, SNumber 10) (100 - 20, 10))
                  0%nat ytick) as [_ Hy]
  end.
  destruct (Hx eq_refl) as (H1 & _ & offset & Ht & _ & Ho & _).
  destruct (Hy eq_refl) as (_ & _ & offset' & Ht' & _ & _ & Hf).
  split; [exact H1|]. split.
  - rewrite Ht. now rewrite (Ho _ eq_refl).
  - rewrite Ht'. now rewrite (Hf _ eq_refl).
Defined.

(** C3 as stated fails for a non-zero offset: in the same example the
    gridline of the x-axis tick is at pixel x = 55 and its label at 62;
    the gridline of the y-axis tick is at pixel y = 45 and its label at
    54. *)
Lemma gridline_meets_tick_position_counterexample :
  exists xs ys xtick ytick labelX labelY,
    xScale (L := AffineScale.library) offset_example = Ok xs /\
    yScale (L := AffineScale.library) offset_example = Ok ys /\
    In xtick (xAxisTicks offset_example xs ys) /\
    In ytick (yAxisTicks offset_example xs ys) /\
    TextProps.x (AxisTick.textProps xtick) = Some labelX /\
    TextProps.y (AxisTick.textProps ytick) = Some labelY /\
    ~ PointData.pixelX (GridLine.p1 (AxisTick.gridLine xtick)) == labelX /\
    ~ PointData.pixelY (GridLine.p1 (AxisTick.gridLine ytick)) == labelY.
Proof.
  do 6 eexists.
  split; [reflexivity|]. split; [reflexivity|].
  split; [left; reflexivity|]. split; [left; reflexivity|].
  split; [reflexivity|]. split; [reflexivity|].
  split; intro H; vm_compute in H; discriminate H.
Qed.




(** C7: the ticks of each axis.  An array of labels is used as it is: the
    axis ticks carry exactly those values and texts, in order.  A number
    [n] asks the scale for its ticks for count [n], and an absent prop
    asks it for count [data.length]. *)
Theorem ticks_from_labels_or_scale
  {L : ScaleLibrary} (props : Props.t) (xs ys : Scale) :
  (forall labels,
     chain (xAxis props) XAxis.labels = Some (XLabelArray labels) ->
     xTicks props xs = map XTickLabel labels /\
     map (fun tick => XAxisLabel.mk (AxisTick.x tick) (AxisTick.text tick))
         (xAxisTicks props xs ys) = labels) /\
  (forall n,
     chain (xAxis props) XAxis.labels = Some (XLabelCount n) ->
     xTicks props xs = map XTickValue (ticks xs n) /\
     map AxisTick.x (xAxisTicks props xs ys) = ticks xs n) /\
  (chain (xAxis props) XAxis.labels = None ->
   xTicks props xs =
     map XTickValue (ticks xs (inject_Z (Z.of_nat (List.length (data props))))) /\
   map AxisTick.x (xAxisTicks props xs ys) =
     ticks xs (inject_Z (Z.of_nat (List.length (data props))))) /\
  (forall labels,
     chain (yAxis props) YAxis.labels = Some (YLabelArray labels) ->
     yTicks props ys = map YTickLabel labels /\
     map (fun tick => YAxisLabel.mk (AxisTick.y tick) (AxisTick.text tick))
         (yAxisTicks props xs ys) = labels) /\
  (forall n,
     chain (yAxis props) YAxis.labels = Some (YLabelCount n) ->
     yTicks props ys = map YTickValue (ticks ys n) /\
     map AxisTick.y (yAxisTicks props xs ys) = ticks ys n) /\
  (chain (yAxis props) YAxis.labels = None ->
   yTicks props ys =
     map YTickValue (ticks ys (inject_Z (Z.of_nat (List.length (data props))))) /\
   map AxisTick.y (yAxisTicks props xs ys) =
     ticks ys (inject_Z (Z.of_nat (List.length (data props))))).
Proof.
  split; [|split; [|split; [|split; [|split]]]].
  - intros labels H. unfold xAxisTicks, xTicks, xLabels. rewrite H.
    split; [reflexivity | apply toXAxisTicks_labels].
  - intros n H. unfold xAxisTicks, xTicks, xLabels, xTickCount. rewrite H.
    split; [reflexivity | apply toXAxisTicks_values].
  - intros H. unfold xAxisTicks, xTicks, xLabels, xTickCount. rewrite H.
    split; [reflexivity | apply toXAxisTicks_values].
  - intros labels H. unfold yAxisTicks, yTicks, yLabel. rewrite H.
    split; [reflexivity | apply toYAxisTicks_labels].
  - intros n H. unfold yAxisTicks, yTicks, yLabel, yTickCount. rewrite H.
    split; [reflexivity | apply toYAxisTicks_values].
  - intros H. unfold yAxisTicks, yTicks, yLabel, yTickCount. rewrite H.
    split; [reflexivity | apply toYAxisTicks_values].
Qed.

Lemma ticks_from_labels_or_scale_witness :
  exists xs ys,
    xScale (L := AffineScale.library) padded_example = Ok xs /\
    yScale (L := AffineScale.library) padded_example = Ok ys /\
    map AxisTick.x (xAxisTicks padded_example xs ys) = ticks xs 2 /\
    ticks xs 2 = [SNumber 0; SNumber 5; SNumber 10].
Proof.
  eexists. eexists.
  split; [reflexivity|]. split; [reflexivity|].
  split; [|reflexivity].
  lazymatch goal with
  | |- map _ (xAxisTicks _ ?xs ?ys) = _ =>
      destruct (@ticks_from_labels_or_scale AffineScale.library padded_example
                  xs ys) as (_ & _ & H & _)
  end.
  exact (proj2 (H eq_refl)).
Defined.

(** C10, as amended: a numeric label position of 0 is treated as absent,
    and any other number is the axis position to which each label's pixel
    offset is added.  With [xAxis.pixelY = 0] the location is ['bottom']
    and the axis position is [chartBottomPixel + 12], as when the prop is
    absent; every other number is itself the axis position.  Every x-axis
    tick has that position as its [pixelY], and the label rendered for the
    [i]-th tick is drawn at that position plus the vertical component of
    the tick's label offset (the zero offset when [labelPixelOffset] is
    absent).  Likewise [yAxis.pixelX = 0] gives ['left'], at
    [chartLeftPixel - 4], every other number is the axis position, and
    each y label is drawn at it plus the horizontal component of its
    offset. *)
Theorem zero_label_position_is_default
  {L : ScaleLibrary} (props : Props.t) (out : Rendered) (i : nat) :
  LineGraph props = Ok out ->
  ((forall n,
      chain (xAxis props) XAxis.pixelY = Some (PixelYNumber n) -> n == 0 ->
      xAxisLocation props = PixelYLocation bottom /\
      defaultXAxisPixelY props = chartBottomPixel props + 12) /\
   (chain (xAxis props) XAxis.pixelY = None ->
    xAxisLocation props = PixelYLocation bottom /\
    defaultXAxisPixelY props = chartBottomPixel props + 12) /\
   (forall n,
      chain (xAxis props) XAxis.pixelY = Some (PixelYNumber n) -> ~ n == 0 ->
      defaultXAxisPixelY props = n) /\
   (forall tick,
      In tick (xAxisTicks props (scaleInfoX out) (scaleInfoY out)) ->
      AxisTick.pixelY tick = defaultXAxisPixelY props) /\
   (forall t,
      nth_error (xTicks props (scaleInfoX out)) i = Some t ->
      exists text,
        nth_error (renderedXTickLabels out) i = Some text /\
        TextProps.y (Text.props text) =
          Some (defaultXAxisPixelY props +
                PixelOffset.vertical
                  (xLabelToPixelOffset (xLabelOfTick props (scaleInfoX out) t) i
                     (chain (xAxis props) XAxis.labelPixelOffset))))) /\
  ((forall n,
      chain (yAxis props) YAxis.pixelX = Some (PixelXNumber n) -> n == 0 ->
      yAxisLocation props = PixelXLocation left /\
      defaultYAxisPixelX props = chartLeftPixel props - 4) /\
   (chain (yAxis props) YAxis.pixelX = None ->
    yAxisLocation props = PixelXLocation left /\
    defaultYAxisPixelX props = chartLeftPixel props - 4) /\
   (forall n,
      chain (yAxis props) YAxis.pixelX = Some (PixelXNumber n) -> ~ n == 0 ->
      defaultYAxisPixelX props = n) /\
   (forall tick,
      In tick (yAxisTicks props (scaleInfoX out) (scaleInfoY out)) ->
      AxisTick.pixelX tick = defaultYAxisPixelX props) /\
   (forall t,
      nth_error (yTicks props (scaleInfoY out)) i = Some t ->
      exists text,
        nth_error (renderedYTickLabels out) i = Some text /\
        TextProps.x (Text.props text) =
          Some (defaultYAxisPixelX props +
                PixelOffset.horizontal
                  (yLabelToPixelOffset (yLabelOfTick props (scaleInfoY out) t) i
                     (chain (yAxis props) YAxis.labelPixelOffset))))).
Proof.
  intros Hout.
  destruct (LineGraph_inv props out Hout)
    as (xs & ys & _ & _ & Ex & Ey & _ & _ & _ & Hxt & Hyt).
  rewrite Ex, Ey, Hxt, Hyt.
  assert (Hz : forall n, n == 0 -> truthy n = false).
  { intros n Hn. unfold truthy. apply negb_false_iff. now apply Qeq_eq_bool. }
  assert (Hnz : forall n, ~ n == 0 -> truthy n = true).
  { intros n Hn. now apply truthy_nonzero. }
  split; (split; [|split; [|split; [|split]]]).
  - intros n H Hn. unfold defaultXAxisPixelY, xAxisLocation.
    rewrite H, (Hz n Hn). now split.
  - intros H. unfold defaultXAxisPixelY, xAxisLocation. rewrite H. now split.
  - intros n H Hn. unfold defaultXAxisPixelY, xAxisLocation.
    now rewrite H, (Hnz n Hn).
  - intros tick Hin. apply xAxisTicks_In in Hin as (label & offset & ->).
    reflexivity.
  - intros t Ht. unfold XTickLabels, xAxisTicks, toXAxisTicks.
    rewrite nth_error_map, nth_error_mapi, Ht. simpl.
    eexists. split; [reflexivity|]. destruct t; reflexivity.
  - intros n H Hn. unfold defaultYAxisPixelX, yAxisLocation.
    rewrite H, (Hz n Hn). now split.
  - intros H. unfold defaultYAxisPixelX, yAxisLocation. rewrite H. now split.
  - intros n H Hn. unfold defaultYAxisPixelX, yAxisLocation.
    now rewrite H, (Hnz n Hn).
  - intros tick Hin. apply yAxisTicks_In in Hin as (label & offset & ->).
    reflexivity.
  - intros t Ht. unfold YTickLabels, yAxisTicks, toYAxisTicks.
    rewrite nth_error_map, nth_error_mapi, Ht. simpl.
    eexists. split; [reflexivity|]. destruct t; reflexivity.
Qed.

(** [pixelX = 0] with the offset (2, 0): the y label is drawn at
    [20 - 4 + 2], the default position shifted.  [pixelY = 7] with the
    offset (0, 3): the x label is drawn at [7 + 3]. *)
Lemma zero_label_position_is_default_witness :
  exists out xtext ytext,
    LineGraph (L := AffineScale.library) shifted_pixel_example = Ok out /\
    nth_error (renderedXTickLabels out) 0 = Some xtext /\
    nth_error (renderedYTickLabels out) 0 = Some ytext /\
    TextProps.y (Text.props xtext) = Some (7 + 3) /\
    TextProps.x (Text.props ytext) = Some (20 - 4 + 2).
Proof.
  do 3 eexists. split; [reflexivity|].
  split; [reflexivity|]. split; [reflexivity|].
  destruct (@zero_label_position_is_default AffineScale.library
              shifted_pixel_example _ 0%nat eq_refl)
    as [(_ & _ & _ & _ & Hx) (_ & _ & _ & _ & Hy)].
  destruct (Hx _ eq_refl) as (xtext & Hnx & Htx).
  destruct (Hy _ eq_refl) as (ytext & Hny & Hty).
  injection Hnx as <-. injection Hny as <-.
  split; [exact Htx | exact Hty].
Defined.

(** C10 as stated fails for a label offset: with [xAxis.pixelY = 7], a
    non-zero number, and [labelPixelOffset] (0, 3) the x label is drawn at
    pixel y = 10, not at 7. *)
Lemma zero_label_position_is_default_counterexample :
  exists out text labelY,
    LineGraph (L := AffineScale.library) shifted_pixel_example = Ok out /\
    chain (xAxis shifted_pixel_example) XAxis.pixelY = Some (PixelYNumber 7) /\
    In text (renderedXTickLabels out) /\
    TextProps.y (Text.props text) = Some labelY /\
    labelY == 10 /\ ~ labelY == 7.
Proof.
  do 3 eexists. split; [reflexivity|]. split; [reflexivity|].
  split; [left; reflexivity|]. split; [reflexivity|].
  split; [vm_compute; reflexivity|].
  intro H. vm_compute in H. discriminate H.
Qed.

(** * Further properties of the component *)

(** ** Reductions and inferred domains *)

(** X1: [min] and [max] throw the [TypeError] of [reduce] on an empty
    array; on any other array [min] returns an element that no element is
    below and [max] one that no element is above, comparing dates and
    numbers by their primitive values. *)
Theorem min_max_of_array (array : list Scalar) :
  (array = [] ->
   min array = Throw (TypeError "Reduce of empty array with no initial value") /\
   max array = Throw (TypeError "Reduce of empty array with no initial value")) /\
  (array <> [] ->
   exists lowest highest,
     min array = Ok lowest /\ max array = Ok highest /\
     In lowest array /\ In highest array /\
     forall v, In v array ->
               valueOf lowest <= valueOf v /\ valueOf v <= valueOf highest).
Proof.
  split.
  - intros ->. split; reflexivity.
  - intros Hne.
    destruct (min_max_nonempty array Hne) as (lo & hi & Hmin & Hmax & H1 & H2 & H3).
    exists lo, hi. repeat split; try assumption; now apply H3.
Qed.

(** A date between two numbers: the least is the number 3, the greatest
    the date of time value 9. *)
Lemma min_max_of_array_witness :
  min [SNumber 7; SDate 9; SNumber 3] = Ok (SNumber 3) /\
  max [SNumber 7; SDate 9; SNumber 3] = Ok (SDate 9) /\
  exists lowest, min [SNumber 7; SDate 9; SNumber 3] = Ok lowest /\
                 valueOf lowest <= valueOf (SDate 9).
Proof.
  split; [reflexivity | split; [reflexivity|]].
  destruct (min_max_of_array [SNumber 7; SDate 9; SNumber 3]) as [_ H].
  destruct (H ltac:(discriminate)) as (lo & hi & Hmin & _ & _ & _ & Hall).
  exists lo. split; [exact Hmin|].
  apply Hall. right. left. reflexivity.
Defined.

Section InferredDomain.
Variable props : Props.t.

Lemma defaultDomain_Ok_nonempty (key : Datum.t -> Scalar) (d : Domain) :
  defaultDomain props key = Ok d -> data props <> [].
Proof.
  intros H E. rewrite (defaultDomain_empty props key E) in H. discriminate.
Qed.

Lemma defaultDomain_Ok_spec (key : Datum.t -> Scalar) (d : Domain) :
  defaultDomain props key = Ok d -> is_min_max (map key (data props)) d.
Proof.
  intros H.
  destruct (defaultDomain_nonempty props key (defaultDomain_Ok_nonempty key d H))
    as (d' & Hd' & Hspec).
  rewrite H in Hd'. injection Hd' as <-. exact Hspec.
Qed.

End InferredDomain.

(** X2: a domain inferred from the data is ascending, its ends are values
    of the data, and it is a single point exactly when all the data share
    one value on that axis. *)
Theorem inferred_domain_ascending
  (props : Props.t) (key : Datum.t -> Scalar) (d : Domain) :
  defaultDomain props key = Ok d ->
  valueOf (fst d) <= valueOf (snd d) /\
  (exists a b, In a (data props) /\ In b (data props) /\
               fst d = key a /\ snd d = key b) /\
  (valueOf (fst d) == valueOf (snd d) <->
   forall a b, In a (data props) -> In b (data props) ->
               valueOf (key a) == valueOf (key b)).
Proof.
  intros H. destruct (defaultDomain_Ok_spec props key d H) as (Hlo & Hhi & Hall).
  pose proof (Hall _ Hhi) as Hle.
  apply in_map_iff in Hlo as (a & Ha & Hina).
  apply in_map_iff in Hhi as (b & Hb & Hinb).
  split; [|split; [|split]].
  - lra.
  - exists a, b. repeat split; auto.
  - intros Heq u v Hu Hv.
    pose proof (Hall _ (in_map key _ _ Hu)).
    pose proof (Hall _ (in_map key _ _ Hv)). lra.
  - intros Hsame. rewrite <- Ha, <- Hb. now apply Hsame.
Qed.

Lemma inferred_domain_ascending_witness :
  exists d, defaultDomain flat_example Datum.y = Ok d /\
            valueOf (fst d) == valueOf (snd d) /\
            valueOf (fst d) <= valueOf (snd d).
Proof.
  eexists. split; [reflexivity|].
  destruct (inferred_domain_ascending flat_example Datum.y
              (SNumber 5, SNumber 5) eq_refl) as (Hle & _ & Hiff).
  split; [|exact Hle].
  apply Hiff. intros a b [<- | [<- | []]] [<- | [<- | []]]; reflexivity.
Defined.

(** ** Dots *)

Section DotFacts.
Context {L : ScaleLibrary}.
Variable props : Props.t.
Variables xs ys : Scale.

Lemma dots_nth (i : nat) :
  nth_error (dots props xs ys) i =
  option_map
    (fun d =>
       let pixelX := call xs (Datum.x d) in
       let pixelY := call ys (Datum.y d) in
       match dotProps props with
       | Some (DotFunction f) =>
           match f d pixelX pixelY i with
           | inr element => inr element
           | inl user => inl (drawn_circle user pixelX pixelY)
           end
       | Some (DotValue user) => inl (drawn_circle user pixelX pixelY)
       | None => inl (drawn_circle CircleProps.empty pixelX pixelY)
       end)
    (nth_error (data props) i).
Proof.
  unfold dots, dotData. rewrite nth_error_mapi. fold (data props).
  destruct (nth_error (data props) i) as [d|]; [|reflexivity]. simpl.
  destruct (dotProps props) as [[user | f]|]; reflexivity.
Qed.

End DotFacts.

(** X3: there is one dot per datum, in the order of the data, and the
    component never supplies an element of its own: the dot at an index is
    an element exactly when [dotProps] is a function and returned that
    element for the datum at that index, its pixel position and the
    index. *)
Theorem dots_follow_data
  {L : ScaleLibrary} (props : Props.t) (xs ys : Scale) :
  List.length (dots props xs ys) = List.length (data props) /\
  forall i element,
    nth_error (dots props xs ys) i = Some (inr element) <->
    exists f d,
      dotProps props = Some (DotFunction f) /\
      nth_error (data props) i = Some d /\
      f d (call xs (Datum.x d)) (call ys (Datum.y d)) i = inr element.
Proof.
  split.
  - unfold dots, dotData. apply length_mapi.
  - intros i element. rewrite dots_nth. split.
    + destruct (nth_error (data props) i) as [d|]; [|discriminate]. simpl.
      destruct (dotProps props) as [[user | f]|]; try discriminate.
      destruct (f d _ _ i) as [user | el] eqn:E; [discriminate|].
      intros [= <-]. now exists f, d.
    + intros (f & d & Hf & Hd & Hel). rewrite Hd, Hf. simpl. now rewrite Hel.
Qed.

Lemma dots_follow_data_witness :
  exists xs ys,
    xScale (L := AffineScale.library) dot_function_example = Ok xs /\
    yScale (L := AffineScale.library) dot_function_example = Ok ys /\
    List.length (dots dot_function_example xs ys) = 2%nat /\
    nth_error (dots dot_function_example xs ys) 0 = Some (inr (JSXElement "star")).
Proof.
  eexists. eexists. split; [reflexivity|]. split; [reflexivity|].
  lazymatch goal with
  | |- List.length (dots _ ?xs ?ys) = _ /\ _ =>
      destruct (@dots_follow_data AffineScale.library dot_function_example xs ys)
        as [Hlen Hel]
  end.
  split; [exact Hlen|].
  apply Hel.
  lazymatch goal with
  | |- exists f d, dotProps _ = Some (DotFunction f) /\ _ =>
      eexists; eexists; split; [reflexivity | split; reflexivity]
  end.
Defined.

(** X4: a dot the component draws itself takes each style field from the
    caller's props when they set it (the static [dotProps], or what the
    function returned for that datum) and from the defaults otherwise:
    fill lightgray, stroke darkslategrey, stroke width 1, radius 5.  Its
    centre is the datum's pixel position even when the caller's props set
    [cx] or [cy]. *)
Theorem dot_style_merges_defaults
  {L : ScaleLibrary} (props : Props.t) (xs ys : Scale)
  (i : nat) (d : Datum.t) (c : CircleProps.t) :
  nth_error (data props) i = Some d ->
  nth_error (dots props xs ys) i = Some (inl c) ->
  exists user,
    (dotProps props = None -> user = CircleProps.empty) /\
    (forall u, dotProps props = Some (DotValue u) -> user = u) /\
    (forall f, dotProps props = Some (DotFunction f) ->
               f d (call xs (Datum.x d)) (call ys (Datum.y d)) i = inl user) /\
    CircleProps.fill c =
      Some (with_default (CircleProps.fill user) "lightgray"%string) /\
    CircleProps.stroke c =
      Some (with_default (CircleProps.stroke user) "darkslategrey"%string) /\
    CircleProps.strokeWidth c = Some (with_default (CircleProps.strokeWidth user) 1) /\
    CircleProps.r c = Some (with_default (CircleProps.r user) 5) /\
    CircleProps.cx c = Some (call xs (Datum.x d)) /\
    CircleProps.cy c = Some (call ys (Datum.y d)).
Proof.
  intros Hd Hc. rewrite dots_nth, Hd in Hc. simpl in Hc.
  assert (Hstyle : forall user,
    c = drawn_circle user (call xs (Datum.x d)) (call ys (Datum.y d)) ->
    CircleProps.fill c =
      Some (with_default (CircleProps.fill user) "lightgray"%string) /\
    CircleProps.stroke c =
      Some (with_default (CircleProps.stroke user) "darkslategrey"%string) /\
    CircleProps.strokeWidth c = Some (with_default (CircleProps.strokeWidth user) 1) /\
    CircleProps.r c = Some (with_default (CircleProps.r user) 5) /\
    CircleProps.cx c = Some (call xs (Datum.x d)) /\
    CircleProps.cy c = Some (call ys (Datum.y d))).
  { intros [ufill ustroke uwidth ur ucx ucy] ->. simpl.
    destruct ufill, ustroke, uwidth, ur; repeat split; reflexivity. }
  destruct (dotProps props) as [[u | f]|] eqn:E.
  - injection Hc as <-. exists u.
    split; [discriminate | split; [now intros ? [= <-] | split; [discriminate|]]].
    now apply Hstyle.
  - destruct (f d _ _ i) as [user | el] eqn:Ef; [|discriminate].
    injection Hc as <-. exists user.
    split; [discriminate | split; [discriminate | split]].
    + now intros ? [= <-].
    + now apply Hstyle.
  - injection Hc as <-. exists CircleProps.empty.
    split; [reflexivity | split; [discriminate | split; [discriminate|]]].
    now apply Hstyle.
Qed.

(** The second dot of the example: red, radius 1 from the caller, the
    default stroke, and the centre at pixel (90, 10) although the caller
    asked for (0, 0). *)
Lemma dot_style_merges_defaults_witness :
  exists xs ys c,
    xScale (L := AffineScale.library) dot_function_example = Ok xs /\
    yScale (L := AffineScale.library) dot_function_example = Ok ys /\
    nth_error (dots dot_function_example xs ys) 1 = Some (inl c) /\
    CircleProps.fill c = Some "red"%string /\
    CircleProps.stroke c = Some "darkslategrey"%string /\
    CircleProps.cx c = Some (call xs (SNumber 10)).
Proof.
  do 3 eexists. split; [reflexivity|]. split; [reflexivity|].
  split; [reflexivity|].
  lazymatch goal with
  | |- CircleProps.fill ?c = _ /\ _ =>
      destruct (@dot_style_merges_defaults AffineScale.library dot_function_example
                  (AffineScale.scaleLinear_ (SNumber 0, SNumber 10) (20, 100 - 10))
                  (AffineScale.scaleLinear_ (SNumber 0, SNumber 10) (100 - 20, 10))
                  1%nat (Datum.mk (SNumber 10) (SNumber 10)) c eq_refl eq_refl)
        as (user & _ & _ & Hf & Hfill & Hstroke & _ & _ & Hcx & _)
  end.
  specialize (Hf _ eq_refl). injection Hf as <-.
  split; [exact Hfill | split; [exact Hstroke | exact Hcx]].
Defined.

(** ** Tick labels *)

(** X5: the style of tick labels.  The font size is the caller's
    [textProps.fontSize] or 12.  The anchor of an x label is the caller's
    [textProps.textAnchor] or ['middle']; that of a y label is the
    caller's or, by the axis position, ['start'] for ['right'] and for a
    non-zero number and ['end'] for ['left'], for 0 and when absent. *)
Theorem label_text_style
  {L : ScaleLibrary} (props : Props.t) (xs ys : Scale) (tick : AxisTick.t) :
  (In tick (xAxisTicks props xs ys) ->
   TextProps.fontSize (AxisTick.textProps tick) =
     Some (with_default
             (chain (chain (xAxis props) XAxis.textProps) TextProps.fontSize) 12) /\
   TextProps.textAnchor (AxisTick.textProps tick) =
     Some (with_default
             (chain (chain (xAxis props) XAxis.textProps) TextProps.textAnchor)
             "middle"%string)) /\
  (In tick (yAxisTicks props xs ys) ->
   TextProps.fontSize (AxisTick.textProps tick) =
     Some (with_default
             (chain (chain (yAxis props) YAxis.textProps) TextProps.fontSize) 12) /\
   TextProps.textAnchor (AxisTick.textProps tick) =
     Some (with_default
             (chain (chain (yAxis props) YAxis.textProps) TextProps.textAnchor)
             (match chain (yAxis props) YAxis.pixelX with
              | Some (PixelXLocation right) => "start"
              | Some (PixelXNumber n) => if Qeq_bool n 0 then "end" else "start"
              | _ => "end"
              end)%string)).
Proof.
  split; intros Hin.
  - apply xAxisTicks_In in Hin as (label & offset & ->). simpl.
    unfold xTextLabelProps.
    destruct (chain (xAxis props) XAxis.textProps) as [[fs ta tx ty]|]; simpl.
    + destruct fs, ta; split; reflexivity.
    + split; reflexivity.
  - apply yAxisTicks_In in Hin as (label & offset & ->). simpl.
    unfold yTextLabelProps, defaultYTextAnchor, yAxisLocation, truthy.
    destruct (chain (yAxis props) YAxis.textProps) as [[fs ta tx ty]|]; simpl.
    + destruct fs, ta; (split; [reflexivity|]); try reflexivity;
        destruct (chain (yAxis props) YAxis.pixelX) as [[[|]|n]|];
        try reflexivity; destruct (Qeq_bool n 0); reflexivity.
    + split; [reflexivity|].
      destruct (chain (yAxis props) YAxis.pixelX) as [[[|]|n]|];
        try reflexivity; destruct (Qeq_bool n 0); reflexivity.
Qed.

Section LabelTextFacts.
Context {L : ScaleLibrary}.
Variable props : Props.t.
Variables xs ys : Scale.

Lemma toXAxisTicks_texts (ticks_ : list XTick) :
  map AxisTick.text (toXAxisTicks props xs ys ticks_) =
  map (fun t => match t with
                | XTickLabel label => XAxisLabel.text label
                | XTickValue v => xFormatFunction props xs v
                end) ticks_.
Proof.
  unfold toXAxisTicks, mapi. apply map_mapi_from.
  intros [v | label] j; reflexivity.
Qed.

Lemma toYAxisTicks_texts (ticks_ : list YTick) :
  map AxisTick.text (toYAxisTicks props xs ys ticks_) =
  map (fun t => match t with
                | YTickLabel label => YAxisLabel.text label
                | YTickValue v => yFormatFunction props ys v
                end) ticks_.
Proof.
  unfold toYAxisTicks, mapi. apply map_mapi_from.
  intros [v | label] j; reflexivity.
Qed.

End LabelTextFacts.

(** X6: the rendered tick texts.  Each axis renders one text and one
    gridline per tick.  With an array of labels the texts are the labels'
    own texts, in order, and the format specifier is not used; otherwise
    they are the scale's ticks formatted by
    [scale.tickFormat(count, formatSpecifier)], with the count that
    produced the ticks. *)
Theorem rendered_tick_texts
  {L : ScaleLibrary} (props : Props.t) (out : Rendered) :
  LineGraph props = Ok out ->
  (List.length (renderedXTickLabels out) = List.length (renderedXGridLines out) /\
   List.length (renderedYTickLabels out) = List.length (renderedYGridLines out)) /\
  (forall labels,
     chain (xAxis props) XAxis.labels = Some (XLabelArray labels) ->
     map Text.children (renderedXTickLabels out) = map XAxisLabel.text labels) /\
  ((forall labels, chain (xAxis props) XAxis.labels <> Some (XLabelArray labels)) ->
   map Text.children (renderedXTickLabels out) =
   map (tickFormat (scaleInfoX out) (xTickCount props)
                   (chain (xAxis props) XAxis.formatSpecifier))
       (ticks (scaleInfoX out) (xTickCount props))) /\
  (forall labels,
     chain (yAxis props) YAxis.labels = Some (YLabelArray labels) ->
     map Text.children (renderedYTickLabels out) = map YAxisLabel.text labels) /\
  ((forall labels, chain (yAxis props) YAxis.labels <> Some (YLabelArray labels)) ->
   map Text.children (renderedYTickLabels out) =
   map (tickFormat (scaleInfoY out) (yTickCount props)
                   (chain (yAxis props) YAxis.formatSpecifier))
       (ticks (scaleInfoY out) (yTickCount props))).
Proof.
  intros Hout.
  destruct (LineGraph_inv props out Hout)
    as (xs & ys & _ & _ & Ex & Ey & _ & Hxl & Hyl & Hxt & Hyt).
  rewrite Ex, Ey, Hxt, Hyt, Hxl, Hyl.
  unfold XTickLabels, YTickLabels, XGridLines, YGridLines.
  rewrite !length_map, !map_map. simpl.
  unfold xAxisTicks, yAxisTicks.
  change (fun x => AxisTick.text x) with AxisTick.text.
  rewrite toXAxisTicks_texts, toYAxisTicks_texts.
  unfold xTicks, yTicks, xLabels, yLabel.
  split; [split; reflexivity|].
  split; [|split; [|split]].
  - intros labels H. rewrite H. now rewrite map_map.
  - intros H.
    destruct (chain (xAxis props) XAxis.labels) as [[labels | n]|];
      [now destruct (H labels) | |]; now rewrite map_map.
  - intros labels H. rewrite H. now rewrite map_map.
  - intros H.
    destruct (chain (yAxis props) YAxis.labels) as [[labels | n]|];
      [now destruct (H labels) | |]; now rewrite map_map.
Qed.

(** The labelled example renders the text "five" on each axis; the plain
    one renders the three formatted ticks 0, 5 and 10. *)
Lemma rendered_tick_texts_witness :
  (exists out, LineGraph (L := AffineScale.library) offset_example = Ok out /\
               map Text.children (renderedXTickLabels out) = ["five"%string]) /\
  (exists out, LineGraph (L := AffineScale.library) padded_example = Ok out /\
               List.length (renderedXTickLabels out) = List.length (renderedXGridLines out) /\
               map Text.children (renderedXTickLabels out) =
                 ["0"; "5"; "10"]%string).
Proof.
  split.
  - eexists. split; [reflexivity|].
    destruct (@rendered_tick_texts AffineScale.library offset_example _ eq_refl)
      as (_ & H & _).
    exact (H _ eq_refl).
  - eexists. split; [reflexivity|].
    destruct (@rendered_tick_texts AffineScale.library padded_example _ eq_refl)
      as ((H & _) & _).
    split; [exact H | reflexivity].
Defined.

(** X7: a [labelPixelOffset] function is called once per tick with the
    tick's label and its index, an explicit label as it is and a tick of
    the scale as its value with its formatted text; the label is drawn at
    the tick's pixel position shifted by the offset returned. *)
Theorem label_offset_function_per_tick
  {L : ScaleLibrary} (props : Props.t) (xs ys : Scale) (i : nat) :
  (forall f t,
     chain (xAxis props) XAxis.labelPixelOffset = Some (XOffsetFunction f) ->
     nth_error (xTicks props xs) i = Some t ->
     let label := match t with
                  | XTickLabel label => label
                  | XTickValue v => XAxisLabel.mk v (xFormatFunction props xs v)
                  end in
     exists tick,
       nth_error (xAxisTicks props xs ys) i = Some tick /\
       TextProps.x (AxisTick.textProps tick) =
         Some (call xs (XAxisLabel.x label) + PixelOffset.horizontal (f label i)) /\
       TextProps.y (AxisTick.textProps tick) =
         Some (defaultXAxisPixelY props + PixelOffset.vertical (f label i))) /\
  (forall f t,
     chain (yAxis props) YAxis.labelPixelOffset = Some (YOffsetFunction f) ->
     nth_error (yTicks props ys) i = Some t ->
     let label := match t with
                  | YTickLabel label => label
                  | YTickValue v => YAxisLabel.mk v (yFormatFunction props ys v)
                  end in
     exists tick,
       nth_error (yAxisTicks props xs ys) i = Some tick /\
       TextProps.x (AxisTick.textProps tick) =
         Some (defaultYAxisPixelX props + PixelOffset.horizontal (f label i)) /\
       TextProps.y (AxisTick.textProps tick) =
         Some (call ys (YAxisLabel.y label) + PixelOffset.vertical (f label i))).
Proof.
  split; intros f t Hf Ht label.
  - unfold xAxisTicks, toXAxisTicks. rewrite nth_error_mapi, Ht, Hf. simpl.
    eexists. split; [reflexivity|].
    subst label. destruct t as [v | l]; split; reflexivity.
  - unfold yAxisTicks, toYAxisTicks. rewrite nth_error_mapi, Ht, Hf. simpl.
    eexists. split; [reflexivity|].
    subst label. destruct t as [v | l]; split; reflexivity.
Qed.

(** In the labelled example the y offset function returns (2, index + 9):
    the label of the first y tick is drawn at (16 + 2, 45 + 9). *)
Lemma label_offset_function_per_tick_witness :
  exists xs ys,
    xScale (L := AffineScale.library) offset_example = Ok xs /\
    yScale (L := AffineScale.library) offset_example = Ok ys /\
    exists tick,
      nth_error (yAxisTicks offset_example xs ys) 0 = Some tick /\
      TextProps.x (AxisTick.textProps tick) = Some (20 - 4 + 2) /\
      TextProps.y (AxisTick.textProps tick) =
        Some (call ys (SNumber 5) + (inject_Z (Z.of_nat 0) + 9)).
Proof.
  do 2 eexists. split; [reflexivity|]. split; [reflexivity|].
  destruct (@label_offset_function_per_tick AffineScale.library offset_example
              (AffineScale.scaleLinear_ (SNumber 0, SNumber 10) (20, 100 - 10))
              (AffineScale.scaleLinear_ (SNumber 0, SNumber 10) (100 - 20, 10))
              0%nat) as [_ Hy].
  destruct (Hy _ _ eq_refl eq_refl) as (tick & Hn & Hx & Hyy).
  exists tick. split; [exact Hn|]. split; [exact Hx | exact Hyy].
Defined.

(** ** Gridlines *)

Lemma merged_gridline_props (g : option GridLineProps.t) :
  forall toStroke : LineProps.t,
    toStroke =
      match with_default (chain g GridLineProps.strokeType) solid with
      | dashed => LineProps.mk None None (Some DEFAULT_DASHED_DASHARRAY) None None
      | dotted => LineProps.mk None (Some DEFAULT_DOTTED_WIDTH)
                    (Some DEFAULT_DOTTED_DASHARRAY) (Some "round"%string) None
      | none => LineProps.mk (Some "#0000"%string) None None None None
      | solid => LineProps.empty
      end ->
    styled_as g
      (LineProps.spread (LineProps.spread DEFAULT_GRIDLINE_LINE_PROPS toStroke)
         (match g with
          | Some g => GridLineProps.lineProps g
          | None => LineProps.empty
          end)).
Proof.
  intros toStroke ->. unfold styled_as.
  destruct g as [[[us uw ud uc uf] se ee st]|]; simpl.
  - destruct st as [[| | |]|]; destruct us, uw, ud, uc, uf;
      repeat split; reflexivity.
  - repeat split; reflexivity.
Qed.

(** X8: the stroke of gridlines.  All gridlines of an axis carry the same
    props.  A field the caller sets in [gridLineProps] always wins, so a
    caller's [stroke] keeps the lines visible under [strokeType: 'none'];
    otherwise the stroke is lightgray, or transparent for ['none'];
    ['dashed'] adds the dash array "5, 5"; ['dotted'] adds "1, 5", round
    caps and width 2; ['solid'] and an absent type add nothing. *)
Theorem gridline_stroke_style
  {L : ScaleLibrary} (props : Props.t) (out : Rendered) :
  LineGraph props = Ok out ->
  (forall line, In line (renderedXGridLines out) ->
                styled_as (xGridLineProps props) (Line.props line)) /\
  (forall line, In line (renderedYGridLines out) ->
                styled_as (yGridLineProps props) (Line.props line)).
Proof.
  intros Hout.
  destruct (LineGraph_inv props out Hout)
    as (xs & ys & _ & _ & _ & _ & _ & Hxl & Hyl & _).
  rewrite Hxl, Hyl. unfold XGridLines, YGridLines.
  split; intros line Hin; apply in_map_iff in Hin as (tick & <- & _); simpl;
    apply merged_gridline_props; reflexivity.
Qed.

Lemma gridline_stroke_style_witness :
  exists out,
    LineGraph (L := AffineScale.library) extended_example = Ok out /\
    forall line, In line (renderedXGridLines out) ->
      LineProps.stroke (Line.props line) = Some "lightgray"%string /\
      LineProps.strokeDasharray (Line.props line) = Some "5, 5"%string.
Proof.
  eexists. split; [reflexivity|].
  intros line Hin.
  destruct (@gridline_stroke_style AffineScale.library extended_example _ eq_refl)
    as [Hx _].
  destruct (Hx line Hin) as (Hs & Hd & _).
  split; [exact Hs | exact Hd].
Defined.

(** X9: the geometry of gridlines that holds for every scale.  Each x
    gridline is vertical, at the pixel the x scale gives its tick's value,
    and all x gridlines have the same two y ends; each y gridline is
    horizontal, at the pixel the y scale gives its tick's value, and all
    have the same two x ends. *)
Theorem gridlines_axis_parallel
  {L : ScaleLibrary} (props : Props.t) (out : Rendered) :
  LineGraph props = Ok out ->
  (map Line.x1 (renderedXGridLines out) =
     map (fun t => call (scaleInfoX out) (xTickValue t))
         (xTicks props (scaleInfoX out)) /\
   (forall line, In line (renderedXGridLines out) -> Line.x2 line = Line.x1 line) /\
   (forall line line', In line (renderedXGridLines out) ->
                       In line' (renderedXGridLines out) ->
                       Line.y1 line = Line.y1 line' /\ Line.y2 line = Line.y2 line')) /\
  (map Line.y1 (renderedYGridLines out) =
     map (fun t => call (scaleInfoY out) (yTickValue t))
         (yTicks props (scaleInfoY out)) /\
   (forall line, In line (renderedYGridLines out) -> Line.y2 line = Line.y1 line) /\
   (forall line line', In line (renderedYGridLines out) ->
                       In line' (renderedYGridLines out) ->
                       Line.x1 line = Line.x1 line' /\ Line.x2 line = Line.x2 line')).
Proof.
  intros Hout.
  destruct (LineGraph_inv props out Hout)
    as (xs & ys & _ & _ & Ex & Ey & _ & Hxl & Hyl & _).
  rewrite Ex, Ey, Hxl, Hyl. unfold XGridLines, YGridLines. split.
  - split; [|split].
    + rewrite map_map. unfold xAxisTicks, toXAxisTicks, mapi.
      apply map_mapi_from. intros [v | label] j; reflexivity.
    + intros line Hin. apply in_map_iff in Hin as (tick & <- & Hin).
      apply xAxisTicks_In in Hin as (label & offset & ->). reflexivity.
    + intros line line' Hin Hin'.
      apply in_map_iff in Hin as (tick & <- & Hin).
      apply in_map_iff in Hin' as (tick' & <- & Hin').
      apply xAxisTicks_In in Hin as (label & offset & ->).
      apply xAxisTicks_In in Hin' as (label' & offset' & ->).
      split; reflexivity.
  - split; [|split].
    + rewrite map_map. unfold yAxisTicks, toYAxisTicks, mapi.
      apply map_mapi_from. intros [v | label] j; reflexivity.
    + intros line Hin. apply in_map_iff in Hin as (tick & <- & Hin).
      apply yAxisTicks_In in Hin as (label & offset & ->). reflexivity.
    + intros line line' Hin Hin'.
      apply in_map_iff in Hin as (tick & <- & Hin).
      apply in_map_iff in Hin' as (tick' & <- & Hin').
      apply yAxisTicks_In in Hin as (label & offset & ->).
      apply yAxisTicks_In in Hin' as (label' & offset' & ->).
      split; reflexivity.
Qed.

(** The x gridlines of the plain example stand at pixels 20, 55 and 90. *)
Lemma gridlines_axis_parallel_witness :
  exists out,
    LineGraph (L := AffineScale.library) padded_example = Ok out /\
    map Line.x1 (renderedXGridLines out) =
      map (fun t => call (scaleInfoX out) (xTickValue t))
          (xTicks padded_example (scaleInfoX out)) /\
    map (fun t => Qred (call (scaleInfoX out) (xTickValue t)))
        (xTicks padded_example (scaleInfoX out)) = [20; 55; 90].
Proof.
  eexists. split; [reflexivity|].
  destruct (@gridlines_axis_parallel AffineScale.library padded_example _ eq_refl)
    as ((H & _) & _).
  split; [exact H | reflexivity].
Defined.

(** X10: labels at a named axis position lie outside the chart rectangle.
    Every x-axis tick is 4 pixels above the chart's top for ['top'] and 12
    pixels below its bottom for ['bottom']; every y-axis tick is 4 pixels
    left of the chart's left for ['left'] and 4 pixels right of its right
    for ['right']. *)
Theorem named_axis_positions
  {L : ScaleLibrary} (props : Props.t) (xs ys : Scale) (tick : AxisTick.t) :
  (In tick (xAxisTicks props xs ys) ->
   (chain (xAxis props) XAxis.pixelY = Some (PixelYLocation top) ->
    AxisTick.pixelY tick == paddingTop props - 4 /\
    AxisTick.pixelY tick < chartTopPixel props) /\
   (chain (xAxis props) XAxis.pixelY = Some (PixelYLocation bottom) ->
    AxisTick.pixelY tick == height props - paddingBottom props + 12 /\
    chartBottomPixel props < AxisTick.pixelY tick)) /\
  (In tick (yAxisTicks props xs ys) ->
   (chain (yAxis props) YAxis.pixelX = Some (PixelXLocation left) ->
    AxisTick.pixelX tick == paddingLeft props - 4 /\
    AxisTick.pixelX tick < chartLeftPixel props) /\
   (chain (yAxis props) YAxis.pixelX = Some (PixelXLocation right) ->
    AxisTick.pixelX tick == width props - paddingRight props + 4 /\
    chartRightPixel props < AxisTick.pixelX tick)).
Proof.
  split; intros Hin.
  - apply xAxisTicks_In in Hin as (label & offset & ->). simpl.
    unfold defaultXAxisPixelY, xAxisLocation.
    split; intros ->; simpl; unfold chartTopPixel, chartBottomPixel; split; lra.
  - apply yAxisTicks_In in Hin as (label & offset & ->). simpl.
    unfold defaultYAxisPixelX, yAxisLocation.
    split; intros ->; simpl; unfold chartLeftPixel, chartRightPixel; split; lra.
Qed.

(** ** Scales and the chart rectangle *)

Lemma maybeWithNice_off {L : ScaleLibrary} (s : Scale) (n : option NiceProp) :
  nice_off n -> maybeWithNice s n = s.
Proof.
  intros [-> | (count & -> & Hc)]; [reflexivity|]. simpl.
  assert (E : truthy count = false).
  { unfold truthy. apply negb_false_iff. now apply Qeq_eq_bool. }
  now rewrite E.
Qed.

(** X11: the ends of the domain are drawn on the edges of the chart.
    Without nicing ([nice] absent or 0) and over a domain that is not a
    single point, the x scale maps the first end of the x domain (the
    least x value of the data, or the first end of the visible range) to
    [paddingLeft] and the second to [width - paddingRight]; the y scale
    maps the first end of the y domain to [height - paddingBottom] and
    the second to [paddingTop]. *)
Theorem domain_ends_on_chart_edges
  {L : ScaleLibrary} {C : ScaleContract L} (props : Props.t) (out : Rendered) :
  LineGraph props = Ok out ->
  (forall lo hi,
     xDomain props = Ok (lo, hi) -> ~ valueOf lo == valueOf hi ->
     nice_off (chain (xAxis props) XAxis.nice) ->
     call (scaleInfoX out) lo == paddingLeft props /\
     call (scaleInfoX out) hi == width props - paddingRight props) /\
  (forall lo hi,
     yDomain props = Ok (lo, hi) -> ~ valueOf lo == valueOf hi ->
     nice_off (chain (yAxis props) YAxis.nice) ->
     call (scaleInfoY out) lo == height props - paddingBottom props /\
     call (scaleInfoY out) hi == paddingTop props).
Proof.
  intros Hout.
  destruct (LineGraph_inv props out Hout) as (xs & ys & Hxs & Hys & Ex & Ey & _).
  rewrite Ex, Ey. split; intros lo hi Hd Hne Hoff.
  - destruct (_xBeforeNice_built props _ Hd) as (s & Hs & Hb).
    unfold xScale in Hxs. rewrite Hs in Hxs. simpl in Hxs.
    rewrite (maybeWithNice_off s _ Hoff) in Hxs. injection Hxs as <-.
    apply built_domain_range in Hb as [[D0 D1] [R0 R1]]. simpl in D0, D1, R0, R1.
    assert (N : ~ fst (domain s) == snd (domain s)) by (rewrite D0, D1; exact Hne).
    split.
    + rewrite (call_first s lo N); [exact R0 | now rewrite D0].
    + rewrite (call_last s hi N); [exact R1 | now rewrite D1].
  - destruct (_yBeforeNice_built props _ Hd) as (s & Hs & Hb).
    unfold yScale in Hys. rewrite Hs in Hys. simpl in Hys.
    rewrite (maybeWithNice_off s _ Hoff) in Hys. injection Hys as <-.
    apply built_domain_range in Hb as [[D0 D1] [R0 R1]]. simpl in D0, D1, R0, R1.
    assert (N : ~ fst (domain s) == snd (domain s)) by (rewrite D0, D1; exact Hne).
    split.
    + rewrite (call_first s lo N); [exact R0 | now rewrite D0].
    + rewrite (call_last s hi N); [exact R1 | now rewrite D1].
Qed.

(** With the visible range [2, 8] and the default padding, 2 is drawn at
    pixel 20 and 8 at pixel 90. *)
Lemma domain_ends_on_chart_edges_witness :
  exists out,
    LineGraph (L := AffineScale.library) (visible_example example_data) = Ok out /\
    call (scaleInfoX out) (SNumber 2) == 20 /\
    call (scaleInfoX out) (SNumber 8) == 100 - 10.
Proof.
  eexists. split; [reflexivity|].
  destruct (@domain_ends_on_chart_edges AffineScale.library AffineScaleFacts.contract
              (visible_example example_data) _ eq_refl) as [Hx _].
  apply (Hx (SNumber 2) (SNumber 8) eq_refl).
  - intro H. vm_compute in H. discriminate H.
  - left. reflexivity.
Defined.

(** X12: the x scale depends on the x values of the data, the x axis
    props, the width and the horizontal padding only: two charts that
    agree on these have the same x scale (or throw alike), whatever their
    y values, heights, vertical paddings and y axis props.  The y scale
    likewise depends on the y side only. *)
Theorem scales_are_independent {L : ScaleLibrary} (p q : Props.t) :
  (map Datum.x (Props.data p) = map Datum.x (Props.data q) ->
   Props.xAxis p = Props.xAxis q ->
   Props.width p = Props.width q ->
   Props.paddingLeft p = Props.paddingLeft q ->
   Props.paddingRight p = Props.paddingRight q ->
   xScale p = xScale q) /\
  (map Datum.y (Props.data p) = map Datum.y (Props.data q) ->
   Props.yAxis p = Props.yAxis q ->
   Props.height p = Props.height q ->
   Props.paddingTop p = Props.paddingTop q ->
   Props.paddingBottom p = Props.paddingBottom q ->
   yScale p = yScale q).
Proof.
  assert (Hfirst : forall (key : Datum.t -> Scalar) (l : list Datum.t),
            match nth_error l 0 with
            | Some d => instanceofDate (key d)
            | None => false
            end =
            match nth_error (map key l) 0 with
            | Some v => instanceofDate v
            | None => false
            end).
  { intros key [|d l]; reflexivity. }
  split; intros Hdata Haxis Hsize Hp1 Hp2.
  - unfold xScale, _xBeforeNice, xDomain, defaultDomain.
    unfold chartLeftPixel, chartRightPixel, paddingLeft, paddingRight, width,
      xAxis, data.
    rewrite (Hfirst Datum.x (Props.data p)), (Hfirst Datum.x (Props.data q)).
    now rewrite Hdata, Haxis, Hsize, Hp1, Hp2.
  - unfold yScale, _yBeforeNice, yDomain, defaultDomain.
    unfold chartBottomPixel, chartTopPixel, paddingBottom, paddingTop, height,
      yAxis, data.
    rewrite (Hfirst Datum.y (Props.data p)), (Hfirst Datum.y (Props.data q)).
    now rewrite Hdata, Haxis, Hsize, Hp1, Hp2.
Qed.

(** The constant series and the plain example have the same x values: they
    share the x scale although their y values and y axes differ. *)
Lemma scales_are_independent_witness :
  xScale (L := AffineScale.library)
    (plain_props (Props.data flat_example) 100 30 None None (Props.yAxis flat_example)) =
  xScale (L := AffineScale.library) padded_example.
Proof.
  apply (@scales_are_independent AffineScale.library); reflexivity.
Defined.

(** X13: the graph rectangle is the rectangle the scales map onto.  It
    starts at [(paddingLeft, paddingTop)]; its left and right sides are
    the two ends of the x scale's range and its bottom and top sides the
    two ends of the y scale's range, with or without nicing.  Its width
    is negative exactly when the horizontal padding exceeds the width. *)
Theorem graph_rect_is_scale_range
  {L : ScaleLibrary} {C : ScaleContract L} (props : Props.t) (out : Rendered) :
  LineGraph props = Ok out ->
  let rect := graphRect out in
  Rect.x rect = paddingLeft props /\ Rect.y rect = paddingTop props /\
  fst (range (scaleInfoX out)) == Rect.x rect /\
  snd (range (scaleInfoX out)) == Rect.x rect + Rect.width rect /\
  fst (range (scaleInfoY out)) == Rect.y rect + Rect.height rect /\
  snd (range (scaleInfoY out)) == Rect.y rect /\
  (Rect.width rect < 0 <->
   width props < paddingLeft props + paddingRight props).
Proof.
  intros Hout rect.
  destruct (LineGraph_inv props out Hout) as (xs & ys & Hxs & Hys & Ex & Ey & _).
  pose proof (xScale_range props xs Hxs) as [Rx0 Rx1].
  pose proof (yScale_range props ys Hys) as [Ry0 Ry1].
  simpl in Rx0, Rx1, Ry0, Ry1.
  assert (Hrect : rect = Rect.mk (chartWidthPixel props) (chartHeightPixel props)
                           (chartLeftPixel props) (chartTopPixel props)).
  { subst rect. unfold LineGraph in Hout. rewrite Hxs, Hys in Hout.
    simpl in Hout. now injection Hout as <-. }
  rewrite Ex, Ey, Hrect. simpl.
  unfold chartWidthPixel, chartHeightPixel, chartLeftPixel, chartRightPixel,
    chartTopPixel, chartBottomPixel in *.
  repeat split; try reflexivity; lra.
Qed.

Lemma graph_rect_is_scale_range_witness :
  exists out,
    LineGraph (L := AffineScale.library) narrow_example = Ok out /\
    Rect.width (graphRect out) < 0 /\
    snd (range (scaleInfoX out)) == Rect.x (graphRect out) + Rect.width (graphRect out).
Proof.
  eexists. split; [reflexivity|].
  destruct (@graph_rect_is_scale_range AffineScale.library AffineScaleFacts.contract
              narrow_example _ eq_refl) as (_ & _ & _ & H & _ & _ & Hneg).
  split; [|exact H].
  apply Hneg. vm_compute. reflexivity.
Defined.

(** ** The curve and the path *)

(** X14: the choice of the curve.  Distinct curve names select distinct
    curve factories, none of them a caller's; a factory given by the
    caller is used as it is; and no curve at all selects the natural
    curve, as the name ['natural'] does. *)
Theorem curve_names_select_factories :
  (forall a b : PredefinedCurve.t,
     toCurve (Some (CurveName a)) = toCurve (Some (CurveName b)) -> a = b) /\
  (forall (a : PredefinedCurve.t) (name : string),
     toCurve (Some (CurveName a)) <> d3Shape.customFactory name) /\
  (forall factory, toCurve (Some (CurveFunction factory)) = factory) /\
  toCurve None = d3Shape.curveNatural /\
  toCurve None = toCurve (Some (CurveName PredefinedCurve.natural)).
Proof.
  split; [|split; [|split; [|split]]]; try reflexivity.
  - intros a b. destruct a, b; simpl; intros H; try reflexivity; discriminate H.
  - intros a name. destruct a; discriminate.
Qed.

Section PathFacts.
Context {L : ScaleLibrary} {G : ShapeLibrary}.
Variable props : Props.t.
Variable options : PathOptions.t.
Variables xs ys : Scale.

Lemma linePoints_nth (i : nat) :
  nth_error (linePoints props xs ys) i =
  option_map (fun e => (call xs (Datum.x e), call ys (Datum.y e)))
             (nth_error (data props) i).
Proof. unfold linePoints. apply nth_error_map. Qed.

End PathFacts.

(** X15: the points of the path are the centres of the dots.  The line
    generator is applied to the selected curve and to one point per datum,
    in the order of the data, and the point at an index is the centre
    [(cx, cy)] of the dot the component draws at that index.  What path
    the generator makes of the points is the curve's affair. *)
Theorem line_points_are_dot_centres
  {L : ScaleLibrary} {G : ShapeLibrary}
  (props : Props.t) (options : PathOptions.t) (xs ys : Scale) :
  exists points,
    lineGen props options xs ys =
      line (toCurve (PathOptions.curve options)) points /\
    List.length points = List.length (data props) /\
    List.length points = List.length (dots props xs ys) /\
    forall i c,
      nth_error (dots props xs ys) i = Some (inl c) ->
      exists point,
        nth_error points i = Some point /\
        CircleProps.cx c = Some (fst point) /\
        CircleProps.cy c = Some (snd point).
Proof.
  exists (linePoints props xs ys).
  split; [reflexivity | split; [|split]].
  - unfold linePoints. now rewrite length_map.
  - unfold linePoints, dots, dotData. now rewrite length_map, length_mapi.
  - intros i c Hc. rewrite linePoints_nth. rewrite dots_nth in Hc.
    destruct (nth_error (data props) i) as [d|]; [|discriminate]. simpl in *.
    eexists. split; [reflexivity|]. simpl.
    destruct (dotProps props) as [[user | f]|].
    + injection Hc as <-. split; reflexivity.
    + destruct (f d _ _ i) as [user | el]; [|discriminate].
      injection Hc as <-. split; reflexivity.
    + injection Hc as <-. split; reflexivity.
Qed.

(** The line generator of the plain example is given the pixels (20, 80)
    and (90, 10), the centres of its two dots. *)
Lemma line_points_are_dot_centres_witness :
  exists points c,
    lineGen (L := AffineScale.library) (G := Polyline.library)
      padded_example (PathOptions.mk None None)
      (AffineScale.scaleLinear_ (SNumber 0, SNumber 10) (20, 100 - 10))
      (AffineScale.scaleLinear_ (SNumber 0, SNumber 10) (100 - 20, 10)) =
      @line Polyline.library d3Shape.curveNatural points /\
    List.length points = 2%nat /\
    nth_error (dots (L := AffineScale.library) padded_example
                 (AffineScale.scaleLinear_ (SNumber 0, SNumber 10) (20, 100 - 10))
                 (AffineScale.scaleLinear_ (SNumber 0, SNumber 10) (100 - 20, 10))) 1
      = Some (inl c) /\
    exists point,
      nth_error points 1 = Some point /\ CircleProps.cx c = Some (fst point).
Proof.
  destruct (@line_points_are_dot_centres AffineScale.library Polyline.library
              padded_example (PathOptions.mk None None)
              (AffineScale.scaleLinear_ (SNumber 0, SNumber 10) (20, 100 - 10))
              (AffineScale.scaleLinear_ (SNumber 0, SNumber 10) (100 - 20, 10)))
    as (points & Hgen & Hlen & _ & Hpt).
  exists points. eexists.
  split; [exact Hgen|]. split; [exact Hlen|]. split; [reflexivity|].
  destruct (Hpt 1%nat _ eq_refl) as (point & Hp & Hx & _).
  exists point. split; [exact Hp | exact Hx].
Defined.

(** X16: the props of the path.  The component draws its own path unless
    [lineProps] is a function that returns an element, which then replaces
    it.  In its own path every field the caller sets wins, the path data
    [d] included; otherwise [d] is the generated path, or the empty
    string when the generator returns none, the stroke is gray, the
    stroke width 1 and the fill transparent. *)
Theorem path_props_precedence
  {L : ScaleLibrary} {G : ShapeLibrary}
  (props : Props.t) (options : PathOptions.t) (xs ys : Scale) :
  (forall element,
     LineComponent props options xs ys = inr element <->
     exists f, PathOptions.lineProps options = Some (LineFunction f) /\
               f (data props) = inr element) /\
  (forall path,
     LineComponent props options xs ys = inl path ->
     exists user,
       (PathOptions.lineProps options = None -> user = PathProps.empty) /\
       (forall u, PathOptions.lineProps options = Some (LineValue u) -> user = u) /\
       (forall f, PathOptions.lineProps options = Some (LineFunction f) ->
                  f (data props) = inl user) /\
       PathProps.d path =
         Some (with_default (PathProps.d user)
                 (with_default (lineGen props options xs ys) EmptyString)) /\
       PathProps.stroke path =
         Some (with_default (PathProps.stroke user) "gray"%string) /\
       PathProps.strokeWidth path =
         Some (with_default (PathProps.strokeWidth user) 1) /\
       PathProps.fill path =
         Some (with_default (PathProps.fill user) "#0000"%string)).
Proof.
  assert (Hmerge : forall user path,
    path = PathProps.spread
             (PathProps.spread
                (PathProps.mk (Some (with_default (lineGen props options xs ys)
                                                  EmptyString)) None None None)
                DEFAULT_LINE_PROPS) user ->
    PathProps.d path =
      Some (with_default (PathProps.d user)
              (with_default (lineGen props options xs ys) EmptyString)) /\
    PathProps.stroke path =
      Some (with_default (PathProps.stroke user) "gray"%string) /\
    PathProps.strokeWidth path =
      Some (with_default (PathProps.strokeWidth user) 1) /\
    PathProps.fill path =
      Some (with_default (PathProps.fill user) "#0000"%string)).
  { intros [ud us uw uf] path ->. simpl.
    destruct ud, us, uw, uf; repeat split; reflexivity. }
  unfold LineComponent. split.
  - intros element. split.
    + destruct (PathOptions.lineProps options) as [[u | f]|]; try discriminate.
      destruct (f (data props)) as [user | el] eqn:E; [discriminate|].
      intros [= <-]. now exists f.
    + intros (f & -> & ->). reflexivity.
  - intros path.
    destruct (PathOptions.lineProps options) as [[u | f]|].
    + intros [= <-]. exists u.
      split; [discriminate | split; [now intros ? [= <-] | split; [discriminate|]]].
      now apply Hmerge.
    + destruct (f (data props)) as [user | el] eqn:E; [|discriminate].
      intros [= <-]. exists user.
      split; [discriminate | split; [discriminate | split]].
      * now intros ? [= <-].
      * now apply Hmerge.
    + intros [= <-]. exists PathProps.empty.
      split; [reflexivity | split; [discriminate | split; [discriminate|]]].
      now apply Hmerge.
Qed.

(** A caller's stroke on the plain example: the path keeps its generated
    data, the width 1 and the transparent fill, and is drawn in red. *)
Lemma path_props_precedence_witness :
  exists path,
    LineComponent (L := AffineScale.library) (G := Polyline.library)
      padded_example
      (PathOptions.mk
         (Some (LineValue (PathProps.mk None (Some "red"%string) None None)))
         (Some (CurveName PredefinedCurve.linear)))
      (AffineScale.scaleLinear_ (SNumber 0, SNumber 10) (20, 90))
      (AffineScale.scaleLinear_ (SNumber 0, SNumber 10) (80, 10)) = inl path /\
    PathProps.d path = Some "M20,80L90,10"%string /\
    PathProps.stroke path = Some "red"%string /\
    PathProps.fill path = Some "#0000"%string.
Proof.
  eexists. split; [reflexivity|].
  destruct (@path_props_precedence AffineScale.library Polyline.library
              padded_example
              (PathOptions.mk
                 (Some (LineValue (PathProps.mk None (Some "red"%string) None None)))
                 (Some (CurveName PredefinedCurve.linear)))
              (AffineScale.scaleLinear_ (SNumber 0, SNumber 10) (20, 90))
              (AffineScale.scaleLinear_ (SNumber 0, SNumber 10) (80, 10)))
    as [_ H].
  destruct (H _ eq_refl) as (user & _ & Hu & _ & Hd & Hs & _ & Hf).
  specialize (Hu _ eq_refl). subst user.
  split; [exact Hd | split; [exact Hs | exact Hf]].
Defined.

(** ** Dots of a chart without visible ranges *)

(** X17: without visible ranges, and with a chart rectangle that is not
    inverted, every dot the component draws has its centre inside the
    chart rectangle, whatever the data and with or without nicing: the
    inferred domains contain every datum. *)
Theorem inferred_domains_keep_dots_inside
  {L : ScaleLibrary} {C : ScaleContract L}
  (props : Props.t) (out : Rendered) (c : CircleProps.t) :
  LineGraph props = Ok out ->
  chain (xAxis props) XAxis.visibleX = None ->
  chain (yAxis props) YAxis.visibleY = None ->
  paddingLeft props <= width props - paddingRight props ->
  paddingTop props <= height props - paddingBottom props ->
  In (inl c) (renderedDots out) ->
  exists pixelX pixelY,
    CircleProps.cx c = Some pixelX /\ CircleProps.cy c = Some pixelY /\
    paddingLeft props <= pixelX <= width props - paddingRight props /\
    paddingTop props <= pixelY <= height props - paddingBottom props.
Proof.
  intros Hout Hvx Hvy Hw Hh Hin.
  destruct (LineGraph_inv props out Hout)
    as (xs & ys & Hxs & Hys & _ & _ & Hdots & _).
  rewrite Hdots in Hin. apply In_nth_error in Hin as [i Hi].
  rewrite dots_nth in Hi.
  destruct (nth_error (data props) i) as [d|] eqn:Hd; [|discriminate].
  assert (Hind : In d (data props)) by (eapply nth_error_In; exact Hd).
  exists (call xs (Datum.x d)), (call ys (Datum.y d)).
  assert (Hc : CircleProps.cx c = Some (call xs (Datum.x d)) /\
               CircleProps.cy c = Some (call ys (Datum.y d))).
  { simpl in Hi. destruct (dotProps props) as [[user | f]|].
    - injection Hi as <-. split; reflexivity.
    - destruct (f d _ _ i) as [user | el]; [|discriminate].
      injection Hi as <-. split; reflexivity.
    - injection Hi as <-. split; reflexivity. }
  destruct Hc as [Hcx Hcy]. split; [exact Hcx | split; [exact Hcy|]].
  pose proof (call_between xs (Datum.x d)
                (inferred_x_domain_contains_data props xs d Hvx Hxs Hind)) as Bx.
  pose proof (call_between ys (Datum.y d)
                (inferred_y_domain_contains_data props ys d Hvy Hys Hind)) as By.
  pose proof (xScale_range props xs Hxs) as [Rx0 Rx1].
  pose proof (yScale_range props ys Hys) as [Ry0 Ry1].
  unfold between in Bx, By. simpl in Rx0, Rx1, Ry0, Ry1.
  unfold chartLeftPixel, chartRightPixel in Rx0, Rx1.
  unfold chartBottomPixel, chartTopPixel in Ry0, Ry1.
  split; split; lra.
Qed.

(** The niced and extended example: both dots are inside [20, 90] by
    [10, 80]. *)
Lemma inferred_domains_keep_dots_inside_witness :
  exists out,
    LineGraph (L := AffineScale.library) extended_example = Ok out /\
    List.length (renderedDots out) = 2%nat /\
    forall c, In (inl c) (renderedDots out) ->
      exists pixelX pixelY,
        CircleProps.cx c = Some pixelX /\ CircleProps.cy c = Some pixelY /\
        20 <= pixelX <= 100 - 10 /\ 10 <= pixelY <= 100 - 20.
Proof.
  eexists. split; [reflexivity|]. split; [reflexivity|].
  intros c Hin.
  apply (@inferred_domains_keep_dots_inside AffineScale.library
           AffineScaleFacts.contract extended_example _ c eq_refl eq_refl eq_refl).
  - vm_compute. discriminate.
  - vm_compute. discriminate.
  - exact Hin.
Defined.

(** ** Empty data *)

(** X18: over an empty data array the domain of an axis is inferred only
    when its visible range is missing, and inferring it throws the
    [TypeError] of [reduce]; with the visible range the domain is that
    range.  The component throws that [TypeError] before it builds a scale
    for the axis whenever one of the two visible ranges is missing: the x
    domain is inferred first, the y domain once the x scale is built, and
    nothing catches the exception. *)
Theorem empty_data_throws_without_visible_range
  {L : ScaleLibrary} (props : Props.t) :
  data props = [] ->
  let reduceError := TypeError "Reduce of empty array with no initial value" in
  (chain (xAxis props) XAxis.visibleX = None ->
   xDomain props = Throw reduceError /\ xScale props = Throw reduceError) /\
  (chain (yAxis props) YAxis.visibleY = None ->
   yDomain props = Throw reduceError /\ yScale props = Throw reduceError) /\
  (forall visibleX, chain (xAxis props) XAxis.visibleX = Some visibleX ->
                    xDomain props = Ok visibleX) /\
  (forall visibleY, chain (yAxis props) YAxis.visibleY = Some visibleY ->
                    yDomain props = Ok visibleY) /\
  (chain (xAxis props) XAxis.visibleX = None \/
   chain (yAxis props) YAxis.visibleY = None ->
   LineGraph props = Throw reduceError).
Proof.
  intros Hdata reduceError.
  assert (Hx : chain (xAxis props) XAxis.visibleX = None ->
               xDomain props = Throw reduceError /\ xScale props = Throw reduceError).
  { intros Hv. unfold xScale, _xBeforeNice, xDomain. rewrite Hv.
    rewrite (defaultDomain_empty props Datum.x Hdata). now split. }
  assert (Hy : chain (yAxis props) YAxis.visibleY = None ->
               yDomain props = Throw reduceError /\ yScale props = Throw reduceError).
  { intros Hv. unfold yScale, _yBeforeNice, yDomain. rewrite Hv.
    rewrite (defaultDomain_empty props Datum.y Hdata). now split. }
  split; [exact Hx | split; [exact Hy | split; [|split]]].
  - intros visibleX Hv. unfold xDomain. now rewrite Hv.
  - intros visibleY Hv. unfold yDomain. now rewrite Hv.
  - intros Hmissing. unfold LineGraph.
    destruct (chain (xAxis props) XAxis.visibleX) as [vx|] eqn:Ex.
    + destruct Hmissing as [Hm | Hm]; [discriminate|].
      destruct (xScale_of_domain props vx) as [xs Hxs];
        [unfold xDomain; now rewrite Ex|].
      rewrite Hxs. simpl. now rewrite (proj2 (Hy Hm)).
    + now rewrite (proj2 (Hx eq_refl)).
Qed.

(** An empty chart with only the x range given throws on the y domain. *)
Lemma empty_data_throws_without_visible_range_witness :
  LineGraph (L := AffineScale.library)
    (plain_props [] 100 100 None
       (Some (XAxis.mk None None None None None None None
                (Some (SNumber 2, SNumber 8)))) None) =
    Throw (TypeError "Reduce of empty array with no initial value").
Proof.
  apply (@empty_data_throws_without_visible_range AffineScale.library
           (plain_props [] 100 100 None
              (Some (XAxis.mk None None None None None None None
                       (Some (SNumber 2, SNumber 8)))) None));
    [reflexivity | right; reflexivity].
Defined.
